(** * TelemetryXF1: the glue code of [app.py], embedded and verified

    [app.py] is a Streamlit page over FastF1 (telemetry provider), pandas
    (frames) and Plotly (charts).  The development embeds the functions the
    page defines and the statements of its render pass:

    - [_driver_team], [load_driver_laps], [load_lap_telemetry];
    - the lap-label parser of the render pass ([lnum1], [lnum2]);
    - the alignment step, the x axes, the colour fallbacks and the four
      chart panels.

    Python exceptions are modelled by an error monad [Result]; a pandas
    frame is an index together with a finite map from column names to
    columns; the provider (session handle, [delta_time], [team_color]) is
    passed in as data or as functions, and every call into it may raise.
    The Streamlit cache decorators memoise pure functions and are left out.
    Integers of a column are int64 and floats are binary64, as on 64-bit
    Linux; a float is written as Python's [repr] writes it.

    Python [str] values are modelled as Rocq strings holding the UTF-8
    encoding of the text.  Since UTF-8 is self-synchronising, searching for
    a well-formed separator in a well-formed text finds the same occurrences
    on bytes as on code points. *)

From Stdlib Require Import ZArith Ascii Floats.
From stdpp Require Import gmap strings list fin_maps pretty.

Local Open Scope Z_scope.

(** ** Exceptions *)

Inductive exn : Type :=
| KeyError (key : string)
| IndexError
| ValueError (msg : string)
| TypeError (msg : string)
| OverflowError (msg : string)
| IntCastingNaNError
| ProviderError (msg : string).

Inductive Result (A : Type) : Type :=
| Ok (a : A)
| Raise (e : exn).
Arguments Ok {A} a.
Arguments Raise {A} e.

#[global] Instance result_ret : MRet Result := fun _ a => Ok a.
#[global] Instance result_bind : MBind Result := fun _ _ f m =>
  match m with
  | Ok a => f a
  | Raise e => Raise e
  end.
#[global] Instance result_throw : MThrow exn Result := fun _ e => Raise e.

(** [try: body except Exception: handler] *)
Definition try_except {A} (body : Result A) (handler : Result A) : Result A :=
  match body with
  | Ok a => Ok a
  | Raise _ => handler
  end.

Definition raises {A} (r : Result A) : Prop := exists e, r = Raise e.

(** ** Python strings *)

Module PyString.

(** [s.startswith(p)], returning the rest of [s] after [p]. *)
Fixpoint strip_prefix (p s : string) : option string :=
  match p with
  | EmptyString => Some s
  | String a p' =>
      match s with
      | EmptyString => None
      | String b s' => if Ascii.eqb a b then strip_prefix p' s' else None
      end
  end.

(** [s.partition(sep)]: the text before the first occurrence of [sep] and
    the text after it, or [None] when [sep] does not occur. *)
Fixpoint partition (sep s : string) : option (string * string) :=
  match strip_prefix sep s with
  | Some rest => Some (EmptyString, rest)
  | None =>
      match s with
      | EmptyString => None
      | String c s' =>
          match partition sep s' with
          | Some (before, after) => Some (String c before, after)
          | None => None
          end
      end
  end.

(** The cuts of [s.split(sep)] for a non-empty [sep]: cut at every
    occurrence, left to right.  Each cut consumes at least one character,
    so [length s] rounds always suffice. *)
Fixpoint split_fuel (fuel : nat) (sep s : string) : list string :=
  match partition sep s with
  | None => [s]
  | Some (before, after) =>
      match fuel with
      | O => [before; after]
      | S fuel' => before :: split_fuel fuel' sep after
      end
  end.

(** [s.split(sep)]; an empty separator is a [ValueError]. *)
Definition split (sep s : string) : Result (list string) :=
  match sep with
  | EmptyString => Raise (ValueError "empty separator")
  | _ => Ok (split_fuel (String.length s) sep s)
  end.

(** [l[0]] *)
Definition first {A} (l : list A) : Result A :=
  match l with
  | x :: _ => Ok x
  | [] => Raise IndexError
  end.

(** The white space [int()] skips around an ASCII literal: tab, line feed,
    vertical tab, form feed, carriage return and the blank.  (The
    separators 28 .. 31 are white space to [str.strip()] but not to
    [int()].) *)
Definition is_space (c : ascii) : bool :=
  let n := N_of_ascii c in
  ((9 <=? n) && (n <=? 13) || (n =? 32))%N.

(** A character of the ASCII range; a text made of such characters is its
    own UTF-8 encoding. *)
Definition is_ascii (c : ascii) : bool := (N_of_ascii c <? 128)%N.

Fixpoint lstrip (s : string) : string :=
  match s with
  | EmptyString => EmptyString
  | String c s' => if is_space c then lstrip s' else s
  end.

Fixpoint rstrip (s : string) : string :=
  match s with
  | EmptyString => EmptyString
  | String c s' =>
      match rstrip s' with
      | EmptyString => if is_space c then EmptyString else String c EmptyString
      | r => String c r
      end
  end.

Definition strip (s : string) : string := rstrip (lstrip s).

Definition digit_val (c : ascii) : option Z :=
  let n := N_of_ascii c in
  if ((48 <=? n) && (n <=? 57))%N then Some (Z.of_N n - 48) else None.

(** The digits of a decimal literal: at least one digit, single
    underscores allowed between digits only. *)
Fixpoint parse_digits (acc : Z) (after_digit : bool) (s : string) : option Z :=
  match s with
  | EmptyString => if after_digit then Some acc else None
  | String c s' =>
      match digit_val c with
      | Some d => parse_digits (10 * acc + d) true s'
      | None =>
          if Ascii.eqb c "_"%char && after_digit
          then parse_digits acc false s'
          else None
      end
  end.

(** [int(s)] in base 10 on ASCII text: surrounding white space, an optional
    sign, then the digits; anything else is a [ValueError].  Two things
    Python does are left out, and the statements about [int] keep to text
    where they do not matter: Python also reads the decimal digits and
    skips the spaces of other scripts (here every non-ASCII text is
    rejected), and the interpreter refuses literals of more than 4300
    digits unless configured otherwise. *)
Definition split_sign (body : string) : bool * string :=
  match body with
  | String c r =>
      if Ascii.eqb c "-"%char then (true, r)
      else if Ascii.eqb c "+"%char then (false, r)
      else (false, body)
  | EmptyString => (false, body)
  end.

Definition int (s : string) : Result Z :=
  let '(negative, digits) := split_sign (strip s) in
  match parse_digits 0 false digits with
  | Some v => Ok (if negative : bool then - v else v)
  | None => Raise (ValueError s)
  end.

(** [str(n)] for a Python integer. *)
Definition str_int (n : Z) : string := pretty n.

(** [s.rstrip("0")] *)
Fixpoint rstrip_zeros (s : string) : string :=
  match s with
  | EmptyString => EmptyString
  | String c s' =>
      match rstrip_zeros s' with
      | EmptyString => if Ascii.eqb c "0" then EmptyString else String c EmptyString
      | r => String c r
      end
  end.

Fixpoint zeros (n : nat) : string :=
  match n with
  | O => EmptyString
  | S n' => String "0" (zeros n')
  end.

(** The first [n] characters of [s] and the rest. *)
Fixpoint split_at (n : nat) (s : string) : string * string :=
  match n, s with
  | S n', String c s' => let '(a, b) := split_at n' s' in (String c a, b)
  | _, _ => (EmptyString, s)
  end.

(** The decimal exponent of a positive rational [num / den]: the [p] with
    [10^p <= num / den < 10^(p+1)], searched downward from [p]. *)
Fixpoint exponent10 (fuel : nat) (num den : Z) (p : Z) : Z :=
  match fuel with
  | O => p
  | S fuel' =>
      if (if 0 <=? p then den * 10 ^ p <=? num else den <=? num * 10 ^ (- p))
      then p
      else exponent10 fuel' num den (p - 1)
  end.

(** The shortest decimal that reads back as the float [m * 2^e], as the
    digits [d] and the exponent [q] of [d * 10^q].  Among the decimals of
    [n] digits only the two next to the float can lie in its rounding
    interval; the interval is closed when [m] is even, and its lower half is
    narrower when [m] is a power of two. *)
Fixpoint shortest (fuel : nat) (m e p : Z) (n : Z) : Z * Z :=
  let boundary := (m =? 2 ^ 52) && (- 1074 <? e) in
  let '(v, lo, hi, e') :=
    if boundary then (4 * m, 4 * m - 1, 4 * m + 2, e - 2)
    else (2 * m, 2 * m - 1, 2 * m + 1, e - 1) in
  let q := p - n + 1 in
  let scale := 2 ^ Z.max e' 0 * 10 ^ Z.max (- q) 0 in
  let unit := 2 ^ Z.max (- e') 0 * 10 ^ Z.max q 0 in
  let d_lo := v * scale / unit in
  let d_hi := d_lo + 1 in
  let inside d :=
    if Z.even m
    then (lo * scale <=? d * unit) && (d * unit <=? hi * scale)
    else (lo * scale <? d * unit) && (d * unit <? hi * scale) in
  let below := v * scale - d_lo * unit in
  let above := d_hi * unit - v * scale in
  let nearest :=
    if below <? above then d_lo
    else if above <? below then d_hi
    else if Z.even d_lo then d_lo else d_hi in
  match fuel with
  | O => (nearest, q)
  | S fuel' =>
      if inside d_lo && inside d_hi then (nearest, q)
      else if inside d_lo then (d_lo, q)
      else if inside d_hi then (d_hi, q)
      else shortest fuel' m e p (n + 1)
  end.

(** [repr(x)] for a finite positive float [m * 2^e]: the shortest digits,
    written with an exponent when the decimal point would fall more than 16
    places to the right of the first digit or more than 3 zeros to its
    left. *)
Definition repr_finite (m e : Z) : string :=
  let num := m * 2 ^ Z.max e 0 in
  let den := 2 ^ Z.max (- e) 0 in
  let p := exponent10 8 num den
             ((Z.log2 num - Z.log2 den + 2) * 30103 / 100000 + 1) in
  let '(d, q) := shortest 17 m e p 1 in
  let all_digits := pretty d in
  let decpt := Z.of_nat (String.length all_digits) + q in
  let digits := rstrip_zeros all_digits in
  let len := Z.of_nat (String.length digits) in
  if (decpt <=? - 4) || (16 <? decpt) then
    let '(first, rest) := split_at 1 digits in
    let x := decpt - 1 in
    first +:+ (if String.eqb rest "" then "" else "." +:+ rest)
    +:+ "e" +:+ (if x <? 0 then "-" else "+")
    +:+ (if Z.abs x <? 10 then "0" else "") +:+ pretty (Z.abs x)
  else if decpt <=? 0 then
    "0." +:+ zeros (Z.to_nat (- decpt)) +:+ digits
  else if len <=? decpt then
    digits +:+ zeros (Z.to_nat (decpt - len)) +:+ ".0"
  else
    let '(whole, frac) := split_at (Z.to_nat decpt) digits in
    whole +:+ "." +:+ frac.

(** [str(x)] and [repr(x)] for a float. *)
Definition str_float (f : float) : string :=
  match Prim2SF f with
  | S754_nan => "nan"
  | S754_infinity s => if s then "-inf" else "inf"
  | S754_zero s => if s then "-0.0" else "0.0"
  | S754_finite s m e =>
      (if s then "-" else "") +:+ repr_finite (Z.pos m) e
  end.

(** Every character of [s] satisfies [p]. *)
Fixpoint all_chars (p : ascii -> bool) (s : string) : bool :=
  match s with
  | EmptyString => true
  | String c s' => p c && all_chars p s'
  end.

Definition is_digit (c : ascii) : bool := bool_decide (is_Some (digit_val c)).

(** The characters [str] of an integer is made of. *)
Definition is_int_char (c : ascii) : bool := is_digit c || Ascii.eqb c "-"%char.

End PyString.


(** ** Python and pandas scalars

    The values a lap table or a driver-info mapping can hold.  [PyNaN] is
    the missing float, [PyFloat] a float64 cell, [PyNaT] the missing
    timedelta; a present timedelta is kept as its nanosecond count. *)

Inductive PyVal : Type :=
| PyNone
| PyNaN
| PyNaT
| PyBool (b : bool)
| PyInt (n : Z)
| PyFloat (f : float)
| PyStr (s : string)
| PyTimedelta (ns : Z).

(** How pandas writes a timedelta is pandas' business
    ([Timedelta._repr_base]); the page only passes the text on.  The flag
    says whether the long form is asked for ([format="long"]) or the form
    is left to the value ([format=None]). *)
Class Pandas := { timedelta_str : bool -> Z -> string }.

Section Scalars.
Context `{Pandas}.

(** [str(v)] *)
Definition py_str (v : PyVal) : string :=
  match v with
  | PyNone => "None"
  | PyNaN => "nan"
  | PyNaT => "NaT"
  | PyBool true => "True"
  | PyBool false => "False"
  | PyInt n => PyString.str_int n
  | PyFloat f => PyString.str_float f
  | PyStr s => s
  | PyTimedelta ns => timedelta_str true ns
  end.

End Scalars.

(** [pd.notna(v)] *)
Definition notna (v : PyVal) : bool :=
  match v with
  | PyNone | PyNaN | PyNaT => false
  | PyFloat f => negb (PrimFloat.is_nan f)
  | _ => true
  end.

(** [bool(v)], the truth value an [if] or [and] tests. *)
Definition truthy (v : PyVal) : bool :=
  match v with
  | PyNone => false
  | PyNaN | PyNaT => true
  | PyBool b => b
  | PyInt n => negb (n =? 0)
  | PyFloat f => negb (PrimFloat.eqb f 0)
  | PyStr s => negb (String.eqb s "")
  | PyTimedelta ns => negb (ns =? 0)
  end.

(** What [session.get_driver] can hand back: a [dict], a labelled pandas
    [Series], or a plain scalar. *)
Inductive PyObj : Type :=
| ODict (d : gmap string PyVal)
| OSeries (d : gmap string PyVal)
| OScalar (v : PyVal).

(** ** Telemetry columns

    A telemetry channel is a numeric column of one dtype: [bool], [int64]
    (as [Z], wrapped where arithmetic can overflow) or [float64]. *)

Inductive Series : Type :=
| SBool (l : list bool)
| SInt (l : list Z)
| SFloat (l : list float).

Definition int64_min : Z := - 2 ^ 63.
Definition int64_max : Z := 2 ^ 63 - 1.

Definition wrap64 (z : Z) : Z := (z + 2 ^ 63) mod 2 ^ 64 - 2 ^ 63.

(** int64 to float64, round to nearest even. *)
Definition float_of_int64 (z : Z) : float :=
  SF2Prim (binary_normalize FloatOps.prec FloatOps.emax z 0 false).

Definition float_finite (f : float) : bool :=
  negb (PrimFloat.is_nan f || PrimFloat.is_infinity f).

(** float64 to int64 as the C cast does it: truncation toward zero; out of
    range the x86-64 conversion yields the smallest int64. *)
Definition float_to_int64 (f : float) : Z :=
  match Prim2SF f with
  | S754_finite sign m e =>
      let mag := if 0 <=? e then Z.pos m * 2 ^ e else Z.pos m / 2 ^ (- e) in
      let v := if sign then - mag else mag in
      if (int64_min <=? v) && (v <=? int64_max) then v else int64_min
  | _ => 0
  end.

(** [s.astype(int)]: a bool becomes 0 or 1, an integer stays, a float is
    truncated; pandas refuses a float column holding NaN or an infinity. *)
Definition astype_int (s : Series) : Result Series :=
  match s with
  | SBool l => Ok (SInt (Z.b2z <$> l))
  | SInt l => Ok (SInt l)
  | SFloat l =>
      if forallb float_finite l
      then Ok (SInt (float_to_int64 <$> l))
      else Raise IntCastingNaNError
  end.

(** [s * k] for a Python integer [k]. *)
Definition series_mul (s : Series) (k : Z) : Series :=
  match s with
  | SBool l => SInt ((fun b => wrap64 (Z.b2z b * k)) <$> l)
  | SInt l => SInt ((fun z => wrap64 (z * k)) <$> l)
  | SFloat l => SFloat ((fun f => PrimFloat.mul f (float_of_int64 k)) <$> l)
  end.

(** [s / k] for a Python integer [k]: true division, always float64. *)
Definition series_truediv (s : Series) (k : Z) : Series :=
  let by_k f := PrimFloat.div f (float_of_int64 k) in
  match s with
  | SBool l => SFloat ((fun b => by_k (float_of_int64 (Z.b2z b))) <$> l)
  | SInt l => SFloat ((fun z => by_k (float_of_int64 z)) <$> l)
  | SFloat l => SFloat (by_k <$> l)
  end.

(** ** Frames *)

Record DataFrame (C : Type) : Type := mkDataFrame {
  df_index : list Z;
  df_columns : gmap string C
}.
Arguments mkDataFrame {C} _ _.
Arguments df_index {C} _.
Arguments df_columns {C} _.

Section Frames.
Context {C : Type}.
Implicit Types (df : DataFrame C) (k : string).

(** [k in df] and [k in df.columns] *)
Definition contains k df : bool := bool_decide (is_Some (df_columns df !! k)).

(** [df[k]] *)
Definition getitem df k : Result C :=
  match df_columns df !! k with
  | Some c => Ok c
  | None => Raise (KeyError k)
  end.

(** [df[k] = c] *)
Definition setitem df k (c : C) : DataFrame C :=
  mkDataFrame (df_index df) (<[k := c]> (df_columns df)).

(** [df.reset_index(drop=True)]: the index becomes 0 .. n-1, the old one is
    dropped and the columns stay. *)
Definition reset_index df : DataFrame C :=
  mkDataFrame (seqZ 0 (Z.of_nat (length (df_index df)))) (df_columns df).

(** [df.empty]: no rows or no columns. *)
Definition empty df : bool :=
  bool_decide (df_index df = []) || bool_decide (df_columns df = ∅).

(** [df.copy()]: frames are values here, a copy is the same value. *)
Definition copy df : DataFrame C := df.

End Frames.

(** A lap table holds Python scalars, a telemetry frame typed columns. *)
Abbreviation LapsFrame := (DataFrame (list PyVal)).
Abbreviation Telemetry := (DataFrame Series).

(** Every column of a pandas frame has one cell per index entry. *)
Definition laps_wf (laps : LapsFrame) : Prop :=
  map_Forall (fun _ c => length c = length (df_index laps)) (df_columns laps).

(** [laps.iloc[0][k]] *)
Definition iloc0 (laps : LapsFrame) (k : string) : Result PyVal :=
  match df_index laps with
  | [] => Raise IndexError
  | _ :: _ => c ← getitem laps k; PyString.first c
  end.

(** ** The provider

    A lap handle yields its telemetry.  [Laps] is what
    [session.laps.pick_driver(code)] returns: a lap table that can be cut
    down further to one lap.  A session answers the lap lookup
    [session.laps.pick_driver(code)] and the driver-info query
    [session.get_driver(code)].  Every call into the provider may raise:
    [session.laps] does so when no lap data was loaded.  The answers do not
    change during a render pass. *)

Record Lap : Type := { get_telemetry : Result Telemetry }.

Record Laps : Type := {
  laps_frame : LapsFrame;
  pick_lap : Z -> Result Lap
}.

Record Session : Type := {
  pick_driver : string -> Result Laps;
  get_driver : string -> Result PyObj
}.

Class FastF1 := {
  delta_time : Lap -> Lap -> Result (Series * Telemetry * Telemetry);
  team_color : string -> Result string
}.

(** ** Team of a driver *)

Section Team.
Context `{Pandas}.

(** [d[k]] on a dict *)
Definition dict_getitem (d : gmap string PyVal) (k : string) : Result PyVal :=
  match d !! k with
  | Some v => Ok v
  | None => Raise (KeyError k)
  end.

(** The body of the [try] block: [Some team] when it returns, [None] when
    control falls through to the end of the block.  The three tests are
    [isinstance(info, dict)] (the [ODict] branch), ["TeamName" in info] and
    the truth value of [info["TeamName"]]. *)
Definition team_from_info (session : Session) (code : string)
  : Result (option string) :=
  info ← get_driver session code;
  match info with
  | ODict d =>
      if bool_decide (is_Some (d !! "TeamName")) then
        v ← dict_getitem d "TeamName";
        if truthy v
        then v' ← dict_getitem d "TeamName"; mret (Some (py_str v'))
        else mret None
      else mret None
  | _ => mret None
  end.

Definition _driver_team (session : Session) (code : string) : Result string :=
  picked ← pick_driver session code;
  let laps := laps_frame picked in
  on_laps ←
    (if negb (empty laps) && contains "Team" laps
     then v ← iloc0 laps "Team"; mret (notna v)
     else mret false);
  if on_laps : bool then
    v ← iloc0 laps "Team"; mret (py_str v)
  else
    found ← try_except (team_from_info session code) (mret None);
    mret (default "Unknown" found).

End Team.

(** ** Laps of a driver and their labels *)

Section Laps.
Context `{Pandas}.

(** A column whose cells are timedeltas or [NaT] is a timedelta64 column. *)
Definition is_timedelta (v : PyVal) : bool :=
  match v with
  | PyTimedelta _ | PyNaT => true
  | _ => false
  end.

Definition day_ns : Z := 86400000000000.

Definition whole_days (v : PyVal) : bool :=
  match v with
  | PyTimedelta ns => ns mod day_ns =? 0
  | _ => true
  end.

(** The form pandas picks for a column it writes as text: a timedelta64
    column whose values are all whole days leaves the form to the values,
    every other column is written cell by cell with [str], which asks for
    the long form. *)
Definition long_format (col : list PyVal) : bool :=
  negb (forallb is_timedelta col && forallb whole_days col).

Definition cell_str (long : bool) (v : PyVal) : string :=
  match v with
  | PyTimedelta ns => timedelta_str long ns
  | _ => py_str v
  end.

(** [col.astype(str)] *)
Definition astype_str (col : list PyVal) : list (option string) :=
  (fun v => Some (cell_str (long_format col) v)) <$> col.

(** [col.fillna(d)] on a column of texts. *)
Definition fillna (d : string) (col : list (option string)) : list (option string) :=
  (fun o => Some (default d o)) <$> col.

(** [col + s] and [col1 + col2] on columns of texts; a missing operand
    gives a missing result. *)
Definition str_add_scalar (col : list (option string)) (s : string)
  : list (option string) :=
  (fun o : option string => (fun a => a +:+ s) <$> o) <$> col.

Definition str_add (col1 col2 : list (option string)) : list (option string) :=
  zip_with (fun o1 o2 : option string => a ← o1; b ← o2; Some (a +:+ b))
    col1 col2.

Definition text_cells (col : list (option string)) : list PyVal :=
  (fun o => match o with Some s => PyStr s | None => PyNaN end) <$> col.

Definition load_driver_laps (session : Session) (driver_code : string)
  : Result LapsFrame :=
  picked ← pick_driver session driver_code;
  let laps := copy (laps_frame picked) in
  let laps := reset_index laps in
  if negb (empty laps) then
    lap_time ← getitem laps "LapTime";
    let lt := fillna "NaT" (astype_str lap_time) in
    lap_number ← getitem laps "LapNumber";
    mret (setitem laps "LapLabel"
            (text_cells (str_add (str_add_scalar (astype_str lap_number) " · ") lt)))
  else mret laps.

(** [int(str(lap).split(" · ")[0])] *)
Definition lnum (lap : PyVal) : Result Z :=
  parts ← PyString.split " · " (py_str lap);
  token ← PyString.first parts;
  PyString.int token.

End Laps.

(** ** Telemetry of a lap *)

Definition load_lap_telemetry (session : Session) (lap : Lap) : Result Telemetry :=
  raw ← get_telemetry lap;
  let tel := reset_index raw in
  if contains "Brake" tel then
    brake ← getitem tel "Brake";
    brake' ← astype_int brake;
    mret (setitem tel "Brake" brake')
  else mret tel.

(** ** Charts *)

(** The x data of a trace: a telemetry column or a frame index. *)
Inductive XData : Type :=
| XColumn (s : Series)
| XIndex (i : list Z).

Record Line : Type := { color : string; dash : option string }.

Record Scatter : Type := {
  x : XData;
  y : Series;
  name : string;
  mode : string;
  line : Line
}.

Record Figure : Type := {
  data : list Scatter;
  xaxis_title : string;
  yaxis_title : string;
  yaxis_scaleanchor : option (string * Z)
}.

(** [go.Figure()] *)
Definition go_Figure : Figure :=
  {| data := []; xaxis_title := ""; yaxis_title := ""; yaxis_scaleanchor := None |}.

(** [fig.add_trace(t)] *)
Definition add_trace (fig : Figure) (t : Scatter) : Figure :=
  {| data := data fig ++ [t];
     xaxis_title := xaxis_title fig;
     yaxis_title := yaxis_title fig;
     yaxis_scaleanchor := yaxis_scaleanchor fig |}.

(** [fig.update_layout(xaxis_title=xt, yaxis_title=yt)] *)
Definition update_layout (fig : Figure) (xt yt : string) : Figure :=
  {| data := data fig;
     xaxis_title := xt;
     yaxis_title := yt;
     yaxis_scaleanchor := yaxis_scaleanchor fig |}.

(** [fig.update_yaxes(scaleanchor=a, scaleratio=r)] *)
Definition update_yaxes (fig : Figure) (a : string) (r : Z) : Figure :=
  {| data := data fig;
     xaxis_title := xaxis_title fig;
     yaxis_title := yaxis_title fig;
     yaxis_scaleanchor := Some (a, r) |}.

(** [go.Scatter(x=.., y=.., name=.., mode="lines", line=dict(color=.., dash=..))] *)
Definition lines (xd : XData) (yd : Series) (nm col : string) (dsh : option string)
  : Scatter :=
  {| x := xd; y := yd; name := nm; mode := "lines";
     line := {| color := col; dash := dsh |} |}.

(** [if k in tel: fig.add_trace(mk (tel[k]))] *)
Definition add_channel (fig : Figure) (tel : Telemetry) (k : string)
    (mk : Series -> Scatter) : Result Figure :=
  if contains k tel
  then s ← getitem tel k; mret (add_trace fig (mk s))
  else mret fig.

Inductive MapPanel : Type :=
| MapChart (f : Figure)
| MapInfo (msg : string).

Record Panels : Type := {
  speed_panel : Figure;
  throttle_brake_panel : Figure;
  gear_rpm_panel : Figure;
  track_map_panel : MapPanel
}.

Inductive Page : Type :=
| PagePanels (p : Panels)
| PageWarning (msg : string).

Section Render.
Context `{Pandas} `{FastF1}.

(** Lines 96-102: the two frames the distance panels draw from. *)
Definition align (show_delta : bool) (lap_a lap_b : Lap) (tel_a tel_b : Telemetry)
  : Result (Telemetry * Telemetry) :=
  if show_delta then
    try_except
      (r ← delta_time lap_a lap_b;
       let '(_, tel_a_aligned, tel_b_aligned) := r in
       mret (tel_a_aligned, tel_b_aligned))
      (mret (copy tel_a, copy tel_b))
  else mret (copy tel_a, copy tel_b).

(** Lines 104-105: [tel["Distance"] if "Distance" in tel else tel.index] *)
Definition x_axis (tel : Telemetry) : Result XData :=
  if contains "Distance" tel
  then s ← getitem tel "Distance"; mret (XColumn s)
  else mret (XIndex (df_index tel)).

(** Lines 109-116 *)
Definition color_a (team_a : string) : Result string :=
  try_except (team_color team_a) (mret "#1f77b4").

Definition color_b (team_b : string) : Result string :=
  try_except (team_color team_b) (mret "#ff7f0e").

Section Panels.
Variables (d1 d2 : string) (x_a x_b : XData) (col_a col_b : string).
Variables (tel_a tel_b tel_a_aligned tel_b_aligned : Telemetry).

(** Lines 120-125 *)
Definition fig : Result Figure :=
  f ← add_channel go_Figure tel_a_aligned "Speed"
        (fun s => lines x_a s d1 col_a None);
  f ← add_channel f tel_b_aligned "Speed"
        (fun s => lines x_b s d2 col_b None);
  mret (update_layout f "Distance (m)" "Speed (km/h)").

(** Lines 129-138 *)
Definition fig2 : Result Figure :=
  f ← add_channel go_Figure tel_a_aligned "Throttle"
        (fun s => lines x_a s (d1 +:+ " throttle") col_a None);
  f ← add_channel f tel_a_aligned "Brake"
        (fun s => lines x_a (series_mul s 100) (d1 +:+ " brake%") col_a (Some "dash"));
  f ← add_channel f tel_b_aligned "Throttle"
        (fun s => lines x_b s (d2 +:+ " throttle") col_b None);
  f ← add_channel f tel_b_aligned "Brake"
        (fun s => lines x_b (series_mul s 100) (d2 +:+ " brake%") col_b (Some "dash"));
  mret (update_layout f "Distance (m)" "Input (%)").

(** Lines 143-152 *)
Definition fig3 : Result Figure :=
  f ← add_channel go_Figure tel_a_aligned "nGear"
        (fun s => lines x_a s (d1 +:+ " gear") col_a None);
  f ← add_channel f tel_b_aligned "nGear"
        (fun s => lines x_b s (d2 +:+ " gear") col_b None);
  f ← add_channel f tel_a_aligned "RPM"
        (fun s => lines x_a (series_truediv s 1000) (d1 +:+ " RPM x1000") col_a (Some "dot"));
  f ← add_channel f tel_b_aligned "RPM"
        (fun s => lines x_b (series_truediv s 1000) (d2 +:+ " RPM x1000") col_b (Some "dot"));
  mret (update_layout f "Distance (m)" "Gear / RPM x1000").

(** Lines 156-164 *)
Definition map_fig : Result MapPanel :=
  if forallb (fun k => contains k tel_a) ["X"; "Y"]
     && forallb (fun k => contains k tel_b) ["X"; "Y"]
  then
    xa ← getitem tel_a "X";
    ya ← getitem tel_a "Y";
    let f := add_trace go_Figure (lines (XColumn xa) ya d1 col_a None) in
    xb ← getitem tel_b "X";
    yb ← getitem tel_b "Y";
    let f := add_trace f (lines (XColumn xb) yb d2 col_b None) in
    let f := update_yaxes f "x" 1 in
    mret (MapChart (update_layout f "X" "Y"))
  else
    mret (MapInfo "Track position data not available for this session or lap.").

(** Lines 118-164: the four panels, in page order. *)
Definition panels : Result Panels :=
  p1 ← fig;
  p2 ← fig2;
  p3 ← fig3;
  p4 ← map_fig;
  mret {| speed_panel := p1; throttle_brake_panel := p2;
          gear_rpm_panel := p3; track_map_panel := p4 |}.

End Panels.

(** [st.selectbox(label, options)]: the option the user picked, [None]
    when there is nothing to pick. *)
Definition selectbox (options : list PyVal) (picked : nat) : PyVal :=
  default PyNone (options !! picked).

(** Lines 79-80: the options of a lap selector. *)
Definition lap_options (laps : LapsFrame) : Result (list PyVal) :=
  if negb (empty laps) then getitem laps "LapLabel" else mret [].

(** Lines 86-166: one render pass for the chosen labels. *)
Definition render (session : Session) (d1 d2 : string)
    (laps_d1 laps_d2 : LapsFrame) (lap1 lap2 : PyVal) (show_delta : bool)
  : Result Page :=
  if negb (empty laps_d1) && negb (empty laps_d2) && truthy lap1 && truthy lap2
  then
    lnum1 ← lnum lap1;
    lnum2 ← lnum lap2;
    laps_a ← pick_driver session d1;
    lap_a ← pick_lap laps_a lnum1;
    laps_b ← pick_driver session d2;
    lap_b ← pick_lap laps_b lnum2;
    tel_a ← load_lap_telemetry session lap_a;
    tel_b ← load_lap_telemetry session lap_b;
    aligned ← align show_delta lap_a lap_b tel_a tel_b;
    let '(tel_a_aligned, tel_b_aligned) := aligned in
    x_a ← x_axis tel_a_aligned;
    x_b ← x_axis tel_b_aligned;
    team_a ← _driver_team session d1;
    team_b ← _driver_team session d2;
    col_a ← color_a team_a;
    col_b ← color_b team_b;
    p ← panels d1 d2 x_a x_b col_a col_b tel_a tel_b tel_a_aligned tel_b_aligned;
    mret (PagePanels p)
  else
    mret (PageWarning "Select valid drivers and laps to render telemetry.").

(** Lines 76-166: the laps of both drivers, the lap selectors, the pass. *)
Definition page (session : Session) (d1 d2 : string) (pick1 pick2 : nat)
    (show_delta : bool) : Result Page :=
  laps_d1 ← load_driver_laps session d1;
  laps_d2 ← load_driver_laps session d2;
  options1 ← lap_options laps_d1;
  options2 ← lap_options laps_d2;
  render session d1 d2 laps_d1 laps_d2
    (selectbox options1 pick1) (selectbox options2 pick2) show_delta.

End Render.

(** * Reference behaviour

    What the statements below compare the code with. *)

Section Reference.
Context `{Pandas}.

(** The team recorded on the first lap: the lap list is not empty, it has
    a [Team] column and the first cell is not null. *)
Definition lap_level_team (laps : LapsFrame) : option PyVal :=
  if empty laps then None
  else
    match df_columns laps !! "Team" with
    | Some (v :: _) => if notna v then Some v else None
    | _ => None
    end.

(** The team of the driver-info record as the code accepts it: the query
    returned, the record is a [dict], it has a [TeamName] entry and the
    entry is a true value. *)
Definition info_team (r : Result PyObj) : option PyVal :=
  match r with
  | Ok (ODict d) =>
      match d !! "TeamName" with
      | Some v => if truthy v then Some v else None
      | None => None
      end
  | _ => None
  end.

(** The same reading without the [dict] test: the query returned and the
    record, of whatever kind, has a non-empty [TeamName] field. *)
Definition info_team_any_record (r : Result PyObj) : option PyVal :=
  match r with
  | Ok (ODict d) | Ok (OSeries d) =>
      match d !! "TeamName" with
      | Some v => if truthy v then Some v else None
      | None => None
      end
  | _ => None
  end.

(** The fallback chain over the driver's lap table and the answer of the
    driver-info query: laps, then driver info, then the sentinel. *)
Definition resolve_team (from_info : Result PyObj -> option PyVal)
    (laps : LapsFrame) (info : Result PyObj) : string :=
  match lap_level_team laps with
  | Some v => py_str v
  | None =>
      match from_info info with
      | Some v => py_str v
      | None => "Unknown"
      end
  end.

End Reference.

(** Every value of a column is 0 or 1 (a boolean counts as such). *)
Definition zero_or_one (s : Series) : bool :=
  match s with
  | SBool _ => true
  | SInt l => forallb (fun z => (z =? 0) || (z =? 1)) l
  | SFloat l => forallb (fun f => PrimFloat.eqb f 0 || PrimFloat.eqb f 1) l
  end.

(** Every value of a column is 0 or 100. *)
Definition zero_or_hundred (s : Series) : bool :=
  match s with
  | SBool l => forallb negb l
  | SInt l => forallb (fun z => (z =? 0) || (z =? 100)) l
  | SFloat l => forallb (fun f => PrimFloat.eqb f 0 || PrimFloat.eqb f 100) l
  end.

(** No value of a column is null; only a float column can hold NaN. *)
Definition series_notna (s : Series) : bool :=
  match s with
  | SBool _ | SInt _ => true
  | SFloat l => forallb (fun f => negb (PrimFloat.is_nan f)) l
  end.

(** The frame has column [k]. *)
Definition has_column (k : string) (tel : Telemetry) : Prop :=
  is_Some (df_columns tel !! k).

(** The frame has column [k] and the column holds no null. *)
Definition has_notna_column (k : string) (tel : Telemetry) : Prop :=
  exists s, df_columns tel !! k = Some s /\ series_notna s = true.

(** The frame has column [k] and the column holds a value that is not null. *)
Definition has_some_notna (k : string) (tel : Telemetry) : Prop :=
  exists s, df_columns tel !! k = Some s /\
    match s with
    | SBool l => l <> []
    | SInt l => l <> []
    | SFloat l => exists f, f ∈ l /\ PrimFloat.is_nan f = false
    end.

(** The traces a guarded [add_trace] contributes: one when the channel is
    there, none when it is not. *)
Definition channel_trace (tel : Telemetry) (k : string) (mk : Series -> Scatter)
  : list Scatter :=
  match df_columns tel !! k with
  | Some s => [mk s]
  | None => []
  end.

(** A figure with more traces at the end. *)
Definition extend (fig : Figure) (ts : list Scatter) : Figure :=
  {| data := data fig ++ ts;
     xaxis_title := xaxis_title fig;
     yaxis_title := yaxis_title fig;
     yaxis_scaleanchor := yaxis_scaleanchor fig |}.

(** The frame has the two position columns. *)
Definition has_xy (tel : Telemetry) : Prop := has_column "X" tel /\ has_column "Y" tel.

Definition map_placeholder : string :=
  "Track position data not available for this session or lap.".

(** The traces a map panel shows. *)
Definition map_traces (p : MapPanel) : list Scatter :=
  match p with
  | MapChart f => data f
  | MapInfo _ => []
  end.

(** The traces of the three distance panels, in source order. *)
Section PanelTraces.
Variables (d1 d2 : string) (x_a x_b : XData) (col_a col_b : string).
Variables (tel_a_aligned tel_b_aligned : Telemetry).

Definition speed_traces : list Scatter :=
  channel_trace tel_a_aligned "Speed" (fun s => lines x_a s d1 col_a None)
  ++ channel_trace tel_b_aligned "Speed" (fun s => lines x_b s d2 col_b None).

Definition throttle_brake_traces : list Scatter :=
  channel_trace tel_a_aligned "Throttle"
    (fun s => lines x_a s (d1 +:+ " throttle") col_a None)
  ++ channel_trace tel_a_aligned "Brake"
    (fun s => lines x_a (series_mul s 100) (d1 +:+ " brake%") col_a (Some "dash"))
  ++ channel_trace tel_b_aligned "Throttle"
    (fun s => lines x_b s (d2 +:+ " throttle") col_b None)
  ++ channel_trace tel_b_aligned "Brake"
    (fun s => lines x_b (series_mul s 100) (d2 +:+ " brake%") col_b (Some "dash")).

Definition gear_rpm_traces : list Scatter :=
  channel_trace tel_a_aligned "nGear"
    (fun s => lines x_a s (d1 +:+ " gear") col_a None)
  ++ channel_trace tel_b_aligned "nGear"
    (fun s => lines x_b s (d2 +:+ " gear") col_b None)
  ++ channel_trace tel_a_aligned "RPM"
    (fun s => lines x_a (series_truediv s 1000) (d1 +:+ " RPM x1000") col_a (Some "dot"))
  ++ channel_trace tel_b_aligned "RPM"
    (fun s => lines x_b (series_truediv s 1000) (d2 +:+ " RPM x1000") col_b (Some "dot")).

End PanelTraces.

(** * A small session to run the code on

    Driver 44 has two laps, the second without a lap time; driver 81 has
    the same two laps with the lap numbers as floats, the dtype FastF1 3
    documents for [LapNumber]; driver 16 has no lap.  The driver-info query
    answers with a pandas [Series] for 16 and raises for anybody else.
    [delta_time] always fails here. *)

Module Sample.

Definition pad_left (width : nat) (s : string) : string :=
  String.concat "" (replicate (width - String.length s) "0") +:+ s.

(** pandas' [Timedelta._repr_base]: [D days HH:MM:SS], with six decimals
    of the second when there is a fraction and nine when it goes below the
    microsecond; the days alone when the long form is not asked for and the
    value is a whole number of days.  The days are rounded down and the rest
    counts upward from them, after [ +] when the days are negative. *)
Definition repr_base (long : bool) (ns : Z) : string :=
  let days := ns / day_ns in
  let rest := ns mod day_ns in
  let fraction := rest mod 1000000000 in
  let seconds :=
    pad_left 2 (pretty (rest / 1000000000 mod 60))
    +:+ (if fraction =? 0 then ""
         else "." +:+ pad_left 6 (pretty (fraction / 1000))
              +:+ (if fraction mod 1000 =? 0 then ""
                   else pad_left 3 (pretty (fraction mod 1000)))) in
  if long || negb (rest =? 0) then
    pretty days +:+ " days" +:+ (if days <? 0 then " +" else " ")
    +:+ pad_left 2 (pretty (rest / 3600000000000)) +:+ ":"
    +:+ pad_left 2 (pretty (rest / 60000000000 mod 60)) +:+ ":"
    +:+ seconds
  else pretty days +:+ " days".

#[export] Instance pandas : Pandas := {| timedelta_str := repr_base |}.

Definition laps_44 : LapsFrame :=
  mkDataFrame [120; 121]
    (<["LapNumber" := [PyInt 1; PyInt 2]]>
       (<["LapTime" := [PyTimedelta 92123000000; PyNaT]]>
          (<["Team" := [PyStr "Mercedes"; PyStr "Mercedes"]]> ∅))).

Definition laps_81 : LapsFrame :=
  mkDataFrame [240; 241]
    (<["LapNumber" := [PyFloat 1; PyFloat 2]]>
       (<["LapTime" := [PyTimedelta 92123000000; PyNaT]]>
          (<["Team" := [PyStr "McLaren"; PyStr "McLaren"]]> ∅))).

Definition no_laps : LapsFrame :=
  mkDataFrame []
    (<["LapNumber" := []]> (<["LapTime" := []]> (<["Team" := []]> ∅))).

(** A lap with speed, a boolean brake and positions. *)
Definition tel_bool_brake : Telemetry :=
  mkDataFrame [7; 8; 9]
    (<["Speed" := SFloat [281; 150.5; 97]%float]>
       (<["Brake" := SBool [false; true; true]]>
          (<["RPM" := SInt [11500; 9500; 7000]]>
             (<["X" := SFloat [10; 20; 30]%float]>
                (<["Y" := SFloat [-5; 0; 5]%float]> ∅))))).

(** A lap whose brake channel is a percentage and whose position columns
    hold nothing but NaN. *)
Definition tel_percent_brake : Telemetry :=
  mkDataFrame [0; 1]
    (<["Brake" := SInt [0; 100]]>
       (<["X" := SFloat [nan; nan]]>
          (<["Y" := SFloat [nan; nan]]> ∅))).

Definition lap_bool : Lap := {| get_telemetry := Ok tel_bool_brake |}.
Definition lap_percent : Lap := {| get_telemetry := Ok tel_percent_brake |}.

(** The frames the loader returns for the two laps. *)
Definition loaded_bool : Telemetry :=
  setitem (reset_index tel_bool_brake) "Brake" (SInt [0; 1; 1]).

Definition loaded_percent : Telemetry :=
  setitem (reset_index tel_percent_brake) "Brake" (SInt [0; 100]).

Definition session : Session :=
  {| pick_driver code :=
       if String.eqb code "44"
       then Ok {| laps_frame := laps_44; pick_lap _ := Ok lap_bool |}
       else if String.eqb code "81"
       then Ok {| laps_frame := laps_81; pick_lap _ := Ok lap_bool |}
       else Ok {| laps_frame := no_laps; pick_lap _ := Ok lap_percent |};
     get_driver code :=
       if String.eqb code "16"
       then Ok (OSeries (<["TeamName" := PyStr "Ferrari"]> ∅))
       else Raise (KeyError code) |}.

(** A session whose lap data was not loaded: [session.laps] raises, while
    the driver-info query answers with a [dict]. *)
Definition session_without_laps : Session :=
  {| pick_driver _ := Raise (ProviderError "lap data not loaded");
     get_driver _ := Ok (ODict (<["TeamName" := PyStr "Ferrari"]> ∅)) |}.

#[export] Instance fastf1 : FastF1 :=
  {| delta_time _ _ := Raise (ProviderError "no common distance");
     team_color team :=
       if String.eqb team "Mercedes" then Ok "#27f4d2"
       else Raise (KeyError team) |}.

End Sample.

(** * The rest of the page

    The parts of [app.py] around the functions above: the event list and
    the round number of the chosen event, and the render pass once the two
    laps are known. *)

(** ** The event list (lines 18-21 and 62-65) *)

Abbreviation EventsFrame := (DataFrame (list PyVal)).

(** [fastf1.get_event_schedule(year, include_testing=False)] *)
Class EventSchedule := { get_event_schedule : Z -> Result EventsFrame }.

(** [df[[k1, .., kn]]]: the frame cut down to the named columns; a name that
    is not a column is a [KeyError] (the first missing name is kept as its
    argument). *)
Definition select_columns {C} (df : DataFrame C) (ks : list string)
  : Result (DataFrame C) :=
  match List.filter (fun k => negb (contains k df)) ks with
  | [] => Ok (mkDataFrame (df_index df)
                (filter (fun kc => kc.1 ∈ ks) (df_columns df)))
  | k :: _ => Raise (KeyError k)
  end.

(** The columns line 21 keeps. *)
Definition event_columns : list string :=
  ["EventName"; "RoundNumber"; "EventFormat"; "EventDate"].

Definition list_events `{EventSchedule} (year : Z) : Result EventsFrame :=
  sched ← get_event_schedule year;
  select_columns sched event_columns.

(** [x == n] for a float and an integer: Python compares the exact
    values. *)
Definition float_eq_int (f : float) (n : Z) : bool :=
  match Prim2SF f with
  | S754_zero _ => n =? 0
  | S754_finite sign m e =>
      let v := if sign then Z.neg m else Z.pos m in
      if 0 <=? e then v * 2 ^ e =? n
      else (v mod 2 ^ (- e) =? 0) && (v / 2 ^ (- e) =? n)
  | _ => false
  end.

(** [col == v] on one cell: Python equality, with pandas' rule that a
    missing value equals nothing.  Numbers are compared by value, [True]
    and [False] counting as 1 and 0; values of different kinds are not
    equal. *)
Definition py_eq (a b : PyVal) : bool :=
  match a, b with
  | PyStr s, PyStr t => String.eqb s t
  | PyInt m, PyInt n => m =? n
  | PyBool x, PyBool y => Bool.eqb x y
  | PyBool x, PyInt n => Z.b2z x =? n
  | PyInt n, PyBool x => n =? Z.b2z x
  | PyFloat f, PyFloat g => PrimFloat.eqb f g
  | PyFloat f, PyInt n => float_eq_int f n
  | PyInt n, PyFloat f => float_eq_int f n
  | PyFloat f, PyBool x => float_eq_int f (Z.b2z x)
  | PyBool x, PyFloat f => float_eq_int f (Z.b2z x)
  | PyTimedelta m, PyTimedelta n => m =? n
  | _, _ => false
  end.

(** [int(x)] for a finite float: the fraction is cut off. *)
Definition float_trunc (f : float) : Z :=
  match Prim2SF f with
  | S754_finite sign m e =>
      let mag := if 0 <=? e then Z.pos m * 2 ^ e else Z.pos m / 2 ^ (- e) in
      if sign then - mag else mag
  | _ => 0
  end.

(** [int(v)] on a cell. *)
Definition py_int (v : PyVal) : Result Z :=
  match v with
  | PyInt n => Ok n
  | PyBool b => Ok (Z.b2z b)
  | PyStr s => PyString.int s
  | PyFloat f =>
      if PrimFloat.is_nan f
      then Raise (ValueError "cannot convert float NaN to integer")
      else if PrimFloat.is_infinity f
      then Raise (OverflowError "cannot convert float infinity to integer")
      else Ok (float_trunc f)
  | PyNaN => Raise (ValueError "cannot convert float NaN to integer")
  | PyNaT => Raise (TypeError "int() argument must not be NaTType")
  | PyNone => Raise (TypeError "int() argument must not be NoneType")
  | PyTimedelta _ => Raise (TypeError "int() argument must not be Timedelta")
  end.

(** [col[mask]]: the cells of the rows where the mask is true; mask and
    column come from one frame and run over the same rows. *)
Fixpoint mask_select {A} (mask : list bool) (col : list A) : list A :=
  match mask, col with
  | b :: mask', v :: col' =>
      if b then v :: mask_select mask' col' else mask_select mask' col'
  | _, _ => []
  end.

(** Line 65:
    [int(events.loc[events["EventName"] == event_name, "RoundNumber"].iloc[0])] *)
Definition round_number (events : EventsFrame) (event_name : PyVal) : Result Z :=
  names ← getitem events "EventName";
  let mask := (fun v => py_eq v event_name) <$> names in
  rounds ← getitem events "RoundNumber";
  cell ← PyString.first (mask_select mask rounds);
  py_int cell.

(** Lines 63-65: the events of the season, the event selector over their
    names, the round number of the chosen one. *)
Definition grand_prix `{EventSchedule} (year : Z) (picked : nat) : Result Z :=
  events ← list_events year;
  names ← getitem events "EventName";
  round_number events (selectbox names picked).

(** ** The render pass for two laps (lines 90-164) *)

Definition render_laps `{Pandas} `{FastF1} (session : Session) (d1 d2 : string)
    (lnum1 lnum2 : Z) (show_delta : bool) : Result Panels :=
  laps_a ← pick_driver session d1;
  lap_a ← pick_lap laps_a lnum1;
  laps_b ← pick_driver session d2;
  lap_b ← pick_lap laps_b lnum2;
  tel_a ← load_lap_telemetry session lap_a;
  tel_b ← load_lap_telemetry session lap_b;
  aligned ← align show_delta lap_a lap_b tel_a tel_b;
  let '(tel_a_aligned, tel_b_aligned) := aligned in
  x_a ← x_axis tel_a_aligned;
  x_b ← x_axis tel_b_aligned;
  team_a ← _driver_team session d1;
  team_b ← _driver_team session d2;
  col_a ← color_a team_a;
  col_b ← color_b team_b;
  panels d1 d2 x_a x_b col_a col_b tel_a tel_b tel_a_aligned tel_b_aligned.

Definition series_length (s : Series) : nat :=
  match s with
  | SBool l => length l
  | SInt l => length l
  | SFloat l => length l
  end.

(** A trace of one side: its x data, its colour, and y data with one point
    per value of some column of that side's frame. *)
Definition side_trace (xd : XData) (col : string) (tel : Telemetry) (t : Scatter)
  : Prop :=
  x t = xd /\ color (line t) = col /\ mode t = "lines" /\
  exists k s, df_columns tel !! k = Some s /\
    series_length (y t) = series_length s.


(** A season of three events, with a column the page does not use. *)
Module Calendar.

(** A lap table without lap times, and a lap whose brake channel holds a
    NaN. *)
Definition laps_without_times : LapsFrame :=
  mkDataFrame [0] (<["LapNumber" := [PyInt 1]]> ∅).

Definition tel_nan_brake : Telemetry :=
  mkDataFrame [0; 1] (<["Brake" := SFloat [0%float; nan]]> ∅).

Definition lap_nan : Lap := {| get_telemetry := Ok tel_nan_brake |}.

(** The lap table of driver 44 as [load_driver_laps] returns it. *)
Definition labelled_44 : LapsFrame :=
  setitem (reset_index Sample.laps_44) "LapLabel"
    [PyStr "1 · 0 days 00:01:32.123000"; PyStr "2 · NaT"].

(** A lap whose telemetry is a frame that was loaded before. *)
Definition lap_reloaded : Lap := {| get_telemetry := Ok Sample.loaded_bool |}.

Definition session_without_times : Session :=
  {| pick_driver _ :=
       Ok {| laps_frame := laps_without_times; pick_lap _ := Ok lap_nan |};
     get_driver code := Raise (KeyError code) |}.

Definition schedule_2024 : EventsFrame :=
  mkDataFrame [1; 2; 3]
    (<["EventName" := [PyStr "Bahrain Grand Prix";
                       PyStr "Saudi Arabian Grand Prix";
                       PyStr "Australian Grand Prix"]]>
       (<["RoundNumber" := [PyInt 1; PyInt 2; PyInt 3]]>
          (<["EventFormat" := [PyStr "conventional"; PyStr "conventional";
                               PyStr "conventional"]]>
             (<["EventDate" := [PyStr "2024-03-02"; PyStr "2024-03-09";
                                PyStr "2024-03-24"]]>
                (<["Country" := [PyStr "Bahrain"; PyStr "Saudi Arabia";
                                 PyStr "Australia"]]> ∅))))).

(** A schedule that lists no event. *)
Definition schedule_empty : EventsFrame :=
  mkDataFrame []
    (<["EventName" := []]>
       (<["RoundNumber" := []]>
          (<["EventFormat" := []]> (<["EventDate" := []]> ∅)))).

#[export] Instance provider : EventSchedule :=
  {| get_event_schedule year :=
       if year =? 2024 then Ok schedule_2024
       else if year =? 2018 then Ok schedule_empty
       else Raise (ProviderError "no schedule") |}.

End Calendar.

(** * Facts *)

(** ** Text *)

Section PyStringFacts.
Import PyString.

Lemma all_chars_impl (p q : ascii -> bool) s :
  (forall c, p c = true -> q c = true) -> all_chars p s = true -> all_chars q s = true.
Proof.
  intros Hpq. induction s as [|c s IH]; simpl; [done|].
  intros [Hc Hs]%andb_prop. rewrite (Hpq _ Hc), (IH Hs). done.
Qed.

Lemma all_chars_app p s1 s2 :
  all_chars p (s1 +:+ s2) = all_chars p s1 && all_chars p s2.
Proof.
  induction s1 as [|c s1 IH]; simpl; [done|].
  unfold String.app in *. simpl. rewrite IH. by rewrite andb_assoc.
Qed.

Lemma digit_val_pretty_char x :
  (x < 10)%N -> digit_val (pretty_N_char x) = Some (Z.of_N x).
Proof.
  intros Hx.
  assert (x = 0 ∨ x = 1 ∨ x = 2 ∨ x = 3 ∨ x = 4 ∨ x = 5
          ∨ x = 6 ∨ x = 7 ∨ x = 8 ∨ x = 9)%N as Hcases by lia.
  destruct Hcases as [->|[->|[->|[->|[->|[->|[->|[->|[->| ->]]]]]]]]]; reflexivity.
Qed.

(** Reading back the digits that [pretty] wrote in front of [s]. *)
Lemma parse_digits_pretty_go x s b :
  (0 < x)%N ->
  parse_digits 0 b (pretty_N_go x s) = parse_digits (Z.of_N x) true s.
Proof.
  revert s b. induction (N.lt_wf_0 x) as [x _ IH]; intros s b Hx.
  rewrite pretty_N_go_step by done.
  assert (Hd : digit_val (pretty_N_char (x `mod` 10)) = Some (Z.of_N (x `mod` 10))).
  { apply digit_val_pretty_char. by apply N.mod_lt. }
  assert (Hx10 : Z.of_N x = 10 * Z.of_N (x `div` 10) + Z.of_N (x `mod` 10)).
  { pose proof (N.div_mod x 10). lia. }
  destruct (decide (x `div` 10 = 0)%N) as [Hz|Hnz].
  - rewrite Hz in *. rewrite pretty_N_go_0. simpl. rewrite Hd. f_equal. lia.
  - rewrite IH; [|apply N.div_lt; lia|by apply N.neq_0_lt_0].
    simpl. rewrite Hd. f_equal. lia.
Qed.

Lemma all_digits_pretty_go x s :
  all_chars is_digit s = true -> all_chars is_digit (pretty_N_go x s) = true.
Proof.
  revert s. induction (N.lt_wf_0 x) as [x _ IH]; intros s Hs.
  destruct (decide (0 < x)%N) as [Hx|Hx].
  - rewrite pretty_N_go_step by done. apply IH; [by apply N.div_lt|].
    simpl. rewrite Hs, andb_true_r. unfold is_digit.
    rewrite digit_val_pretty_char by (by apply N.mod_lt). done.
  - assert (x = 0%N) as -> by lia. by rewrite pretty_N_go_0.
Qed.

Lemma pretty_Zpos p : pretty (Z.pos p) = pretty_N_go (N.pos p) "".
Proof. unfold pretty, pretty_Z, pretty, pretty_positive, pretty, pretty_N. by case_decide. Qed.

Lemma pretty_Zneg p : pretty (Z.neg p) = String "-" (pretty_N_go (N.pos p) "").
Proof. unfold pretty, pretty_Z, pretty, pretty_positive, pretty, pretty_N. by case_decide. Qed.

Lemma is_digit_int_char c : is_digit c = true -> is_int_char c = true.
Proof. unfold is_int_char. by intros ->. Qed.

Lemma is_int_char_not_space c : is_int_char c = true -> negb (is_space c) = true.
Proof.
  unfold is_int_char, is_digit, digit_val, is_space.
  intros [Hd| ->%Ascii.eqb_eq]%orb_prop; [|done].
  destruct (_ && _)%N eqn:Hr in Hd; [|by apply bool_decide_eq_true in Hd as [? [=]]].
  apply andb_prop in Hr as [?%N.leb_le ?%N.leb_le].
  apply negb_true_iff, orb_false_iff; split.
  - apply andb_false_iff. right. apply N.leb_gt. lia.
  - apply N.eqb_neq. lia.
Qed.

Lemma is_digit_not_sign c :
  is_digit c = true -> Ascii.eqb c "-" = false /\ Ascii.eqb c "+" = false.
Proof.
  intros Hc. split; apply Ascii.eqb_neq; intros ->; vm_compute in Hc; discriminate.
Qed.

(** The text of an integer is made of digits and the minus sign. *)
Lemma str_int_chars n : all_chars is_int_char (str_int n) = true.
Proof.
  unfold str_int. destruct n as [|p|p].
  - reflexivity.
  - rewrite pretty_Zpos. eapply all_chars_impl; [apply is_digit_int_char|].
    by apply all_digits_pretty_go.
  - rewrite pretty_Zneg. simpl. eapply all_chars_impl; [apply is_digit_int_char|].
    by apply all_digits_pretty_go.
Qed.

Lemma lstrip_id s : all_chars (fun c => negb (is_space c)) s = true -> lstrip s = s.
Proof. destruct s as [|c s]; simpl; [done|]. by intros [->%negb_true_iff _]%andb_prop. Qed.

Lemma rstrip_id s : all_chars (fun c => negb (is_space c)) s = true -> rstrip s = s.
Proof.
  induction s as [|c s IH]; simpl; [done|].
  intros [Hc%negb_true_iff Hs]%andb_prop. rewrite (IH Hs), Hc. by destruct s.
Qed.

Lemma strip_id s : all_chars (fun c => negb (is_space c)) s = true -> strip s = s.
Proof. intros Hs. unfold strip. by rewrite (lstrip_id _ Hs), rstrip_id. Qed.

(** [int] undoes [str] on integers. *)
Lemma int_str_int n : int (str_int n) = Ok n.
Proof.
  unfold int. rewrite strip_id
    by (eapply all_chars_impl; [apply is_int_char_not_space|apply str_int_chars]).
  unfold str_int. destruct n as [|p|p].
  - reflexivity.
  - rewrite pretty_Zpos.
    pose proof (all_digits_pretty_go (N.pos p) "" eq_refl) as Hd.
    pose proof (parse_digits_pretty_go (N.pos p) "" false eq_refl) as Hp.
    destruct (pretty_N_go (N.pos p) "") as [|c r] eqn:Hs; [done|].
    simpl in Hd. apply andb_prop in Hd as [[Hm Hpl]%is_digit_not_sign _].
    unfold split_sign. rewrite Hm, Hpl, Hp. done.
  - rewrite pretty_Zneg. unfold split_sign. simpl.
    rewrite (parse_digits_pretty_go (N.pos p) "" false eq_refl). done.
Qed.

Lemma strip_prefix_app p s : strip_prefix p (p +:+ s) = Some s.
Proof.
  induction p as [|a p IH]; [done|].
  unfold String.app in *. simpl. by rewrite Ascii.eqb_refl.
Qed.

(** The first cut falls right after a text that lacks the separator's first
    character. *)
Lemma partition_first c0 sep d t :
  all_chars (fun c => negb (Ascii.eqb c0 c)) d = true ->
  partition (String c0 sep) (d +:+ String c0 sep +:+ t) = Some (d, t).
Proof.
  induction d as [|c d IH]; intros Hd.
  - change ("" +:+ String c0 sep +:+ t) with (String c0 sep +:+ t).
    destruct (String c0 sep +:+ t) eqn:Hs; [done|].
    unfold partition; fold partition.
    by rewrite <-Hs, strip_prefix_app.
  - simpl in Hd. apply andb_prop in Hd as [Hc%negb_true_iff Hd].
    change (String c d +:+ String c0 sep +:+ t)
      with (String c (d +:+ String c0 sep +:+ t)).
    unfold partition; fold partition. cbn [strip_prefix].
    rewrite Hc, (IH Hd). done.
Qed.

Lemma first_split_fuel fuel sep s before after :
  partition sep s = Some (before, after) ->
  first (split_fuel fuel sep s) = Ok before.
Proof. intros Hp. destruct fuel; simpl; by rewrite Hp. Qed.

(** The fuel bound of [split]: a cut leaves strictly less text whenever
    the separator is not empty. *)
Lemma strip_prefix_length p s r :
  strip_prefix p s = Some r -> String.length s = (String.length p + String.length r)%nat.
Proof.
  revert s. induction p as [|a p IH]; intros s; simpl.
  - by intros [= ->].
  - destruct s as [|b s]; [done|].
    destruct (Ascii.eqb a b); [|done]. intros Hr. simpl. by rewrite (IH _ Hr).
Qed.

Lemma partition_length sep s before after :
  partition sep s = Some (before, after) ->
  String.length s
  = (String.length before + String.length sep + String.length after)%nat.
Proof.
  revert before. induction s as [|c s IH]; intros before.
  - destruct sep; simpl; [|done]. by intros [= <- <-].
  - unfold partition; fold partition.
    destruct (strip_prefix sep (String c s)) as [r|] eqn:Hr.
    + intros [= <- <-]. by rewrite (strip_prefix_length _ _ _ Hr).
    + destruct (partition sep s) as [[b a]|]; [|done].
      intros [= <- <-]. simpl. by rewrite (IH b eq_refl).
Qed.

(** With [length s] rounds the cutting never stops early: the result is
    the same for any larger fuel. *)
Lemma split_fuel_enough c0 sep s fuel :
  (String.length s <= fuel)%nat ->
  split_fuel fuel (String c0 sep) s
  = split_fuel (String.length s) (String c0 sep) s.
Proof.
  revert s. induction (lt_wf fuel) as [fuel _ IH]. intros s Hlen.
  destruct (partition (String c0 sep) s) as [[b a]|] eqn:Hp.
  - pose proof (partition_length _ _ _ _ Hp) as Hl. simpl in Hl.
    destruct fuel as [|fuel]; [lia|].
    destruct (String.length s) as [|n] eqn:Hn; [lia|].
    simpl. rewrite Hp.
    rewrite (IH fuel) by lia. rewrite (IH n) by lia. done.
  - destruct fuel, (String.length s); simpl; by rewrite Hp.
Qed.

Lemma string_app_assoc (s1 s2 s3 : string) : (s1 +:+ s2) +:+ s3 = s1 +:+ s2 +:+ s3.
Proof.
  induction s1 as [|c s1 IH]; [done|].
  unfold String.app in *. simpl. by rewrite IH.
Qed.

Lemma is_int_char_not_blank c :
  is_int_char c = true -> negb (Ascii.eqb " " c) = true.
Proof.
  intros Hc. apply negb_true_iff, Ascii.eqb_neq. intros <-.
  vm_compute in Hc. discriminate.
Qed.

(** Cutting [str(n) + " · " + t] at the separator gives [str(n)] first,
    whatever [t] is. *)
Lemma split_label_first n t :
  split " · " (str_int n +:+ " · " +:+ t) ≫= first = Ok (str_int n).
Proof.
  unfold split. cbn [mbind result_bind].
  apply first_split_fuel with (after := t).
  apply partition_first.
  eapply all_chars_impl; [apply is_int_char_not_blank|apply str_int_chars].
Qed.

End PyStringFacts.

(** ** Frames *)

Section FrameFacts.
Context {C : Type}.
Implicit Types (df : DataFrame C) (k : string).

Lemma contains_true k df : contains k df = true <-> is_Some (df_columns df !! k).
Proof. unfold contains. apply bool_decide_eq_true. Qed.

Lemma contains_false k df : contains k df = false <-> df_columns df !! k = None.
Proof.
  unfold contains. rewrite bool_decide_eq_false. symmetry. apply eq_None_not_Some.
Qed.

Lemma getitem_Some df k c : df_columns df !! k = Some c -> getitem df k = Ok c.
Proof. unfold getitem. by intros ->. Qed.

Lemma getitem_raises df k : contains k df = false -> getitem df k = Raise (KeyError k).
Proof. intros Hk%contains_false. unfold getitem. by rewrite Hk. Qed.

Lemma empty_reset_index df : empty (reset_index df) = empty df.
Proof.
  unfold empty, reset_index. simpl. f_equal.
  destruct (df_index df) as [|i l]; [done|].
  rewrite !bool_decide_eq_false_2; [done..|].
  intros Hnil%(f_equal length). rewrite length_seqZ in Hnil. simpl in Hnil. lia.
Qed.

Lemma columns_reset_index df : df_columns (reset_index df) = df_columns df.
Proof. done. Qed.

Lemma getitem_reset_index df k : getitem (reset_index df) k = getitem df k.
Proof. done. Qed.

Lemma contains_reset_index df k : contains k (reset_index df) = contains k df.
Proof. done. Qed.

Lemma index_reset_index df :
  df_index (reset_index df) = seqZ 0 (Z.of_nat (length (df_index df))).
Proof. done. Qed.

End FrameFacts.

(** ** Lap labels *)

Section LapLabels.
Context `{Pandas}.

(** The label of row [i] is built from the cells of row [i], each written
    in the form of its column. *)
Lemma label_cell (numbers times : list PyVal) i v t :
  numbers !! i = Some v ->
  times !! i = Some t ->
  text_cells (str_add (str_add_scalar (astype_str numbers) " · ")
                (fillna "NaT" (astype_str times))) !! i
  = Some (PyStr (cell_str (long_format numbers) v +:+ " · "
                 +:+ cell_str (long_format times) t)).
Proof.
  intros Hv Ht. unfold text_cells, str_add, str_add_scalar, fillna, astype_str.
  rewrite list_lookup_fmap, lookup_zip_with, !list_lookup_fmap, Hv, Ht.
  simpl. by rewrite string_app_assoc.
Qed.

Lemma lnum_label n t : lnum (PyStr (PyString.str_int n +:+ " · " +:+ t)) = Ok n.
Proof.
  unfold lnum. cbn [py_str].
  pose proof (split_label_first n t) as Hs.
  destruct (PyString.split _ _) as [parts|e]; [|done].
  cbn [mbind result_bind] in *. rewrite Hs. cbn [mbind result_bind].
  apply int_str_int.
Qed.

(** Where the lap number of a row is an integer [n], the label of the row
    is the text of [n], the separator [" · "] and the text of the lap time,
    and cutting the label at the first separator and reading the first
    piece with [int] gives [n] back. *)
Lemma lap_label_round_trip (session : Session) (code : string) (laps : Laps)
    (numbers times : list PyVal) (i : nat) (n : Z) (t : PyVal) :
  pick_driver session code = Ok laps ->
  empty (laps_frame laps) = false ->
  df_columns (laps_frame laps) !! "LapNumber" = Some numbers ->
  df_columns (laps_frame laps) !! "LapTime" = Some times ->
  numbers !! i = Some (PyInt n) ->
  times !! i = Some t ->
  exists laps' labels,
    load_driver_laps session code = Ok laps' /\
    df_columns laps' !! "LapLabel" = Some labels /\
    labels !! i
    = Some (PyStr (PyString.str_int n +:+ " · "
                   +:+ cell_str (long_format times) t)) /\
    lnum (PyStr (PyString.str_int n +:+ " · "
                 +:+ cell_str (long_format times) t)) = Ok n.
Proof.
  intros Hlaps Hne Hnum Htime Hn Ht.
  unfold load_driver_laps, copy. rewrite Hlaps. cbn [mbind result_bind].
  rewrite empty_reset_index, Hne. cbn [negb].
  rewrite !getitem_reset_index.
  rewrite (getitem_Some _ _ _ Htime). cbn [mbind result_bind].
  rewrite (getitem_Some _ _ _ Hnum). cbn [mbind result_bind mret result_ret].
  eexists _, _. split; [reflexivity|]. split.
  { cbn [setitem df_columns]. apply lookup_insert_eq. }
  split; [|apply lnum_label].
  by rewrite (label_cell _ _ _ _ _ Hn Ht).
Qed.

End LapLabels.

(** ** Team of a driver *)

Section TeamFacts.
Context `{Pandas}.

Lemma try_team_from_info session code :
  try_except (team_from_info session code) (mret None)
  = Ok (py_str <$> info_team (get_driver session code)).
Proof.
  unfold team_from_info, info_team.
  destruct (get_driver session code) as [[d|d|v]|e]; try done.
  cbn [mbind result_bind]. unfold dict_getitem.
  destruct (d !! "TeamName") as [v|] eqn:Hv.
  - rewrite bool_decide_eq_true_2 by eauto. cbn [mbind result_bind].
    by destruct (truthy v).
  - by rewrite bool_decide_eq_false_2 by (by intros [? ?]).
Qed.

Lemma iloc0_team laps :
  laps_wf laps -> empty laps = false -> contains "Team" laps = true ->
  exists v c, df_columns laps !! "Team" = Some (v :: c) /\ iloc0 laps "Team" = Ok v.
Proof.
  intros Hwf Hne [c Hc]%contains_true.
  unfold laps_wf in Hwf. unfold empty in Hne. apply orb_false_iff in Hne as [Hidx%bool_decide_eq_false _].
  pose proof (Hwf _ _ Hc) as Hlen.
  unfold iloc0. rewrite (getitem_Some _ _ _ Hc).
  destruct (df_index laps) as [|i idx]; [done|].
  destruct c as [|v c]; [done|]. by exists v, c.
Qed.

(** The lap lookup of line 30 is not guarded: when it raises, so does
    [_driver_team], with the same error and without asking for the driver
    info. *)
Lemma driver_team_lookup_raises session code e :
  pick_driver session code = Raise e -> _driver_team session code = Raise e.
Proof. intros Hlaps. unfold _driver_team. by rewrite Hlaps. Qed.

(** Once the lap lookup has returned, the code walks the fallback chain:
    the lap-level team, else the team of a [dict] driver-info record, else
    ["Unknown"]; it returns in every case. *)
Lemma driver_team_chain session code laps :
  pick_driver session code = Ok laps ->
  laps_wf (laps_frame laps) ->
  _driver_team session code
  = Ok (resolve_team info_team (laps_frame laps) (get_driver session code)).
Proof.
  intros Hlaps Hwf. unfold _driver_team, resolve_team, lap_level_team.
  rewrite Hlaps. cbn [mbind result_bind].
  destruct (empty (laps_frame laps)) eqn:Hempty; cbn [negb andb].
  { cbn [mbind result_bind mret result_ret]. rewrite try_team_from_info.
    cbn [mbind result_bind mret result_ret].
    by destruct (info_team _). }
  destruct (contains "Team" (laps_frame laps)) eqn:Hteam.
  - destruct (iloc0_team _ Hwf Hempty Hteam) as (v & c & -> & ->).
    cbn [mbind result_bind mret result_ret].
    destruct (notna v); [done|].
    rewrite try_team_from_info. cbn [mbind result_bind mret result_ret].
    by destruct (info_team _).
  - apply contains_false in Hteam. rewrite Hteam.
    cbn [mbind result_bind mret result_ret]. rewrite try_team_from_info.
    cbn [mbind result_bind mret result_ret].
    by destruct (info_team _).
Qed.

(** C2, amended.  For a session whose lap lookup for the driver returns,
    [_driver_team] does not raise and returns: the team name of the
    driver's first lap when the lap list is not empty, has a [Team] column
    and that cell is not null; otherwise the [TeamName] entry of the
    driver-info record when the query returns a [dict] holding a true
    [TeamName]; otherwise the text ["Unknown"]. *)
Theorem driver_team_resolution (session : Session) (code : string) (laps : Laps) :
  pick_driver session code = Ok laps ->
  laps_wf (laps_frame laps) ->
  (exists team, _driver_team session code = Ok team) /\
  (forall v, lap_level_team (laps_frame laps) = Some v ->
     _driver_team session code = Ok (py_str v)) /\
  (forall v, lap_level_team (laps_frame laps) = None ->
     info_team (get_driver session code) = Some v ->
     _driver_team session code = Ok (py_str v)) /\
  (lap_level_team (laps_frame laps) = None ->
   info_team (get_driver session code) = None ->
   _driver_team session code = Ok "Unknown").
Proof.
  intros Hlaps Hwf. rewrite (driver_team_chain _ _ _ Hlaps Hwf). unfold resolve_team.
  split; [by eexists|].
  split; [by intros v ->|].
  split; [by intros v -> ->|by intros -> ->].
Qed.

End TeamFacts.

(** ** Telemetry of a lap *)

Section TelemetryFacts.
Variable session : Session.

Lemma empty_setitem_present {C} (df : DataFrame C) k c :
  is_Some (df_columns df !! k) -> empty (setitem df k c) = empty df.
Proof.
  intros [c0 Hk]. unfold empty, setitem. cbn [df_index df_columns]. f_equal.
  rewrite !bool_decide_eq_false_2; [done| |].
  - intros Hm. by rewrite Hm, lookup_empty in Hk.
  - apply insert_non_empty.
Qed.

(** What the loader returns, case by case. *)
Lemma load_lap_telemetry_no_brake lap raw :
  get_telemetry lap = Ok raw ->
  df_columns raw !! "Brake" = None ->
  load_lap_telemetry session lap = Ok (reset_index raw).
Proof.
  intros Hraw Hb. unfold load_lap_telemetry. rewrite Hraw.
  cbn [mbind result_bind].
  assert (contains "Brake" (reset_index raw) = false) as ->; [|done].
  by apply contains_false.
Qed.

Lemma load_lap_telemetry_brake lap raw brake :
  get_telemetry lap = Ok raw ->
  df_columns raw !! "Brake" = Some brake ->
  load_lap_telemetry session lap
  = brake' ← astype_int brake; mret (setitem (reset_index raw) "Brake" brake').
Proof.
  intros Hraw Hb. unfold load_lap_telemetry. rewrite Hraw.
  cbn [mbind result_bind].
  assert (contains "Brake" (reset_index raw) = true) as ->.
  { apply contains_true. rewrite columns_reset_index. eauto. }
  by rewrite getitem_reset_index, (getitem_Some _ _ _ Hb).
Qed.

(** A returned frame came from a raw frame and differs from its re-indexed
    form at most in the [Brake] column. *)
Lemma load_lap_telemetry_inv lap tel :
  load_lap_telemetry session lap = Ok tel ->
  exists raw,
    get_telemetry lap = Ok raw /\
    df_index tel = seqZ 0 (Z.of_nat (length (df_index raw))) /\
    (tel = reset_index raw \/
     exists brake brake',
       df_columns raw !! "Brake" = Some brake /\
       astype_int brake = Ok brake' /\
       tel = setitem (reset_index raw) "Brake" brake').
Proof.
  intros Hload. destruct (get_telemetry lap) as [raw|e] eqn:Hraw;
    [|by unfold load_lap_telemetry in Hload; rewrite Hraw in Hload].
  exists raw. split; [done|].
  destruct (df_columns raw !! "Brake") as [brake|] eqn:Hb.
  - rewrite (load_lap_telemetry_brake _ _ _ Hraw Hb) in Hload.
    destruct (astype_int brake) as [brake'|e] eqn:Hcast; [|done].
    injection Hload as <-. split; [done|]. right. by exists brake, brake'.
  - rewrite (load_lap_telemetry_no_brake _ _ Hraw Hb) in Hload.
    injection Hload as <-. split; [done|]. by left.
Qed.

Lemma zero_or_one_b2z (l : list bool) : zero_or_one (SInt (Z.b2z <$> l)) = true.
Proof.
  cbn [zero_or_one]. apply forallb_forall. intros z Hz.
  apply in_map_iff in Hz as (b & <- & _). by destruct b.
Qed.

(** C4, amended.  A boolean [Brake] column is loaded as the integers 0
    (for [False]) and 1 (for [True]): the load returns and every value of
    the loaded column is 0 or 1. *)
Theorem brake_of_booleans_is_0_or_1 (lap : Lap) (raw : Telemetry) (l : list bool) :
  get_telemetry lap = Ok raw ->
  df_columns raw !! "Brake" = Some (SBool l) ->
  exists tel,
    load_lap_telemetry session lap = Ok tel /\
    df_columns tel !! "Brake" = Some (SInt (Z.b2z <$> l)) /\
    zero_or_one (SInt (Z.b2z <$> l)) = true.
Proof.
  intros Hraw Hb. rewrite (load_lap_telemetry_brake _ _ _ Hraw Hb).
  cbn [astype_int mbind result_bind mret result_ret].
  eexists. split; [done|]. split; [|apply zero_or_one_b2z].
  cbn [setitem df_columns]. apply lookup_insert_eq.
Qed.

(** C8.  The frame the loader returns has, under every name other than
    ["Brake"], exactly the column the provider's frame has there (same
    values, same order), no column more and none less. *)
Theorem load_keeps_other_columns (lap : Lap) (tel : Telemetry) :
  load_lap_telemetry session lap = Ok tel ->
  exists raw,
    get_telemetry lap = Ok raw /\
    (forall k, k <> "Brake" -> df_columns tel !! k = df_columns raw !! k) /\
    dom (df_columns tel) = dom (df_columns raw).
Proof.
  intros (raw & Hraw & _ & [->|(brake & brake' & Hb & _ & ->)])%load_lap_telemetry_inv;
    exists raw; (split; [done|]).
  - done.
  - cbn [setitem df_columns reset_index]. split.
    + intros k Hk. by rewrite lookup_insert_ne.
    + rewrite dom_insert_L. apply subseteq_union_1_L, singleton_subseteq_l.
      by apply elem_of_dom_2 in Hb.
Qed.

End TelemetryFacts.

(** ** Alignment, x axes and colours *)

Section RenderFacts.
Context `{Pandas} `{FastF1}.

Lemma load_lap_telemetry_empty session lap raw tel :
  get_telemetry lap = Ok raw ->
  load_lap_telemetry session lap = Ok tel ->
  empty tel = empty raw.
Proof.
  intros Hraw (raw' & Hraw' & _ & Hcases)%load_lap_telemetry_inv.
  assert (raw' = raw) as -> by congruence.
  destruct Hcases as [->|(brake & brake' & Hb & _ & ->)].
  - apply empty_reset_index.
  - rewrite empty_setitem_present, empty_reset_index; [done|].
    rewrite columns_reset_index. eauto.
Qed.

(** C3.  With alignment off, and with alignment on when [delta_time]
    raises, the two frames drawn are the copies of the two loaded frames,
    each empty only if the provider's telemetry of that lap is. *)
Theorem align_falls_back (session : Session) (show_delta : bool)
    (lap_a lap_b : Lap) (raw_a raw_b tel_a tel_b : Telemetry) :
  get_telemetry lap_a = Ok raw_a ->
  get_telemetry lap_b = Ok raw_b ->
  load_lap_telemetry session lap_a = Ok tel_a ->
  load_lap_telemetry session lap_b = Ok tel_b ->
  show_delta = false \/ (show_delta = true /\ raises (delta_time lap_a lap_b)) ->
  align show_delta lap_a lap_b tel_a tel_b = Ok (copy tel_a, copy tel_b) /\
  copy tel_a = tel_a /\ copy tel_b = tel_b /\
  empty (copy tel_a) = empty raw_a /\ empty (copy tel_b) = empty raw_b.
Proof.
  intros Hra Hrb Hla Hlb Hmode. split.
  - unfold align. destruct Hmode as [->|[-> [e ->]]]; done.
  - unfold copy. split; [done|]. split; [done|].
    split; eauto using load_lap_telemetry_empty.
Qed.

(** C10.  The x data of a side is the [Distance] column of its frame when
    the frame has one and the index of the frame otherwise; computing it
    never raises. *)
Theorem x_axis_distance_or_index (tel : Telemetry) :
  x_axis tel
  = Ok (match df_columns tel !! "Distance" with
        | Some distance => XColumn distance
        | None => XIndex (df_index tel)
        end).
Proof.
  unfold x_axis, contains, getitem.
  destruct (df_columns tel !! "Distance") as [d|].
  - by rewrite bool_decide_eq_true_2 by eauto.
  - by rewrite bool_decide_eq_false_2 by (by intros [? ?]).
Qed.

(** C6.  Each side takes the provider's colour when [team_color] returns
    one and its own fixed colour when [team_color] raises; the two fixed
    colours differ. *)
Theorem color_resolution (team : string) :
  (forall c, team_color team = Ok c ->
     color_a team = Ok c /\ color_b team = Ok c) /\
  (raises (team_color team) ->
     color_a team = Ok "#1f77b4" /\ color_b team = Ok "#ff7f0e") /\
  (forall team', raises (team_color team) -> raises (team_color team') ->
     color_a team <> color_b team').
Proof.
  unfold color_a, color_b. split; [by intros c ->|].
  split; [by intros [e ->]|].
  by intros team' [e ->] [e' ->].
Qed.

End RenderFacts.

(** ** The four panels *)

Section PanelFacts.
Variables (d1 d2 : string) (x_a x_b : XData) (col_a col_b : string).
Variables (tel_a tel_b tel_a_aligned tel_b_aligned : Telemetry).

Lemma extend_nil f : extend f [] = f.
Proof. destruct f. unfold extend. simpl. by rewrite app_nil_r. Qed.

Lemma extend_extend f ts ts' : extend (extend f ts) ts' = extend f (ts ++ ts').
Proof. unfold extend. simpl. by rewrite app_assoc. Qed.

(** A guarded [add_trace] never raises: the lookup happens only under the
    membership test. *)
Lemma add_channel_ok f tel k mk :
  add_channel f tel k mk = Ok (extend f (channel_trace tel k mk)).
Proof.
  unfold add_channel, channel_trace, contains, getitem.
  destruct (df_columns tel !! k) as [s|].
  - by rewrite bool_decide_eq_true_2 by eauto.
  - rewrite bool_decide_eq_false_2 by (by intros [? ?]).
    by rewrite extend_nil.
Qed.

Lemma channel_trace_nil tel k mk :
  channel_trace tel k mk = [] <-> df_columns tel !! k = None.
Proof. unfold channel_trace. by destruct (df_columns tel !! k). Qed.

Lemma elem_of_channel_trace tel k mk t :
  t ∈ channel_trace tel k mk <-> exists s, df_columns tel !! k = Some s /\ t = mk s.
Proof.
  unfold channel_trace. destruct (df_columns tel !! k) as [s|].
  - rewrite list_elem_of_singleton. split.
    + intros ->. by exists s.
    + by intros (s' & [= <-] & ->).
  - split; [by intros ?%not_elem_of_nil|by intros (? & ? & ?)].
Qed.

Lemma fig_ok :
  fig d1 d2 x_a x_b col_a col_b tel_a_aligned tel_b_aligned
  = Ok (update_layout
          (extend go_Figure
             (speed_traces d1 d2 x_a x_b col_a col_b tel_a_aligned tel_b_aligned))
          "Distance (m)" "Speed (km/h)").
Proof.
  unfold fig, speed_traces. rewrite add_channel_ok. cbn [mbind result_bind].
  rewrite add_channel_ok. cbn [mbind result_bind].
  by rewrite extend_extend.
Qed.

Lemma fig2_ok :
  fig2 d1 d2 x_a x_b col_a col_b tel_a_aligned tel_b_aligned
  = Ok (update_layout
          (extend go_Figure
             (throttle_brake_traces d1 d2 x_a x_b col_a col_b
                tel_a_aligned tel_b_aligned))
          "Distance (m)" "Input (%)").
Proof.
  unfold fig2, throttle_brake_traces.
  do 4 (rewrite add_channel_ok; cbn [mbind result_bind]).
  by rewrite !extend_extend.
Qed.

Lemma fig3_ok :
  fig3 d1 d2 x_a x_b col_a col_b tel_a_aligned tel_b_aligned
  = Ok (update_layout
          (extend go_Figure
             (gear_rpm_traces d1 d2 x_a x_b col_a col_b tel_a_aligned tel_b_aligned))
          "Distance (m)" "Gear / RPM x1000").
Proof.
  unfold fig3, gear_rpm_traces.
  do 4 (rewrite add_channel_ok; cbn [mbind result_bind]).
  by rewrite !extend_extend.
Qed.

Lemma has_xy_contains tel :
  forallb (fun k => contains k tel) ["X"; "Y"] = true <-> has_xy tel.
Proof.
  cbn [forallb]. rewrite andb_true_r, andb_true_iff, !contains_true. done.
Qed.

(** The map panel: the chart with the two position traces when all four
    columns are there, the placeholder otherwise. *)
Lemma map_fig_chart xa ya xb yb :
  df_columns tel_a !! "X" = Some xa -> df_columns tel_a !! "Y" = Some ya ->
  df_columns tel_b !! "X" = Some xb -> df_columns tel_b !! "Y" = Some yb ->
  map_fig d1 d2 col_a col_b tel_a tel_b
  = Ok (MapChart
          (update_layout
             (update_yaxes
                (extend go_Figure [lines (XColumn xa) ya d1 col_a None;
                                   lines (XColumn xb) yb d2 col_b None])
                "x" 1)
             "X" "Y")).
Proof.
  intros Hxa Hya Hxb Hyb. unfold map_fig.
  assert (forallb (fun k => contains k tel_a) ["X"; "Y"] = true) as ->.
  { apply has_xy_contains. split; red; eauto. }
  assert (forallb (fun k => contains k tel_b) ["X"; "Y"] = true) as ->.
  { apply has_xy_contains. split; red; eauto. }
  cbn [andb].
  rewrite (getitem_Some _ _ _ Hxa), (getitem_Some _ _ _ Hya),
    (getitem_Some _ _ _ Hxb), (getitem_Some _ _ _ Hyb).
  done.
Qed.

Lemma map_fig_placeholder :
  ~ (has_xy tel_a /\ has_xy tel_b) ->
  map_fig d1 d2 col_a col_b tel_a tel_b = Ok (MapInfo map_placeholder).
Proof.
  intros Hno. unfold map_fig.
  destruct (forallb _ _ && forallb _ _) eqn:Hc; [|done].
  apply andb_prop in Hc as [Ha%has_xy_contains Hb%has_xy_contains]. tauto.
Qed.

Lemma has_xy_dec tel : has_xy tel \/ ~ has_xy tel.
Proof.
  unfold has_xy, has_column.
  destruct (df_columns tel !! "X"), (df_columns tel !! "Y");
    first [left; split; by eauto | right; intros [[? ?] [? ?]]; congruence].
Qed.

Lemma map_fig_ok : exists p, map_fig d1 d2 col_a col_b tel_a tel_b = Ok p.
Proof.
  destruct (has_xy_dec tel_a) as [[[xa Hxa] [ya Hya]]|Ha];
    [destruct (has_xy_dec tel_b) as [[[xb Hxb] [yb Hyb]]|Hb]|].
  - eexists. by apply map_fig_chart.
  - eexists. apply map_fig_placeholder. tauto.
  - eexists. apply map_fig_placeholder. tauto.
Qed.

(** The four panels together never raise, and the three distance panels
    are the guarded traces in source order. *)
Lemma panels_ok :
  exists m,
    map_fig d1 d2 col_a col_b tel_a tel_b = Ok m /\
    panels d1 d2 x_a x_b col_a col_b tel_a tel_b tel_a_aligned tel_b_aligned
    = Ok {| speed_panel :=
              update_layout
                (extend go_Figure
                   (speed_traces d1 d2 x_a x_b col_a col_b
                      tel_a_aligned tel_b_aligned))
                "Distance (m)" "Speed (km/h)";
            throttle_brake_panel :=
              update_layout
                (extend go_Figure
                   (throttle_brake_traces d1 d2 x_a x_b col_a col_b
                      tel_a_aligned tel_b_aligned))
                "Distance (m)" "Input (%)";
            gear_rpm_panel :=
              update_layout
                (extend go_Figure
                   (gear_rpm_traces d1 d2 x_a x_b col_a col_b
                      tel_a_aligned tel_b_aligned))
                "Distance (m)" "Gear / RPM x1000";
            track_map_panel := m |}.
Proof.
  destruct map_fig_ok as [m Hm]. exists m. split; [done|].
  unfold panels. rewrite fig_ok, fig2_ok, fig3_ok, Hm. done.
Qed.

End PanelFacts.

(** ** Brake and RPM scaling *)

Section Scaling.

Lemma forallb_fmap_impl {A B} (f : A -> B) (p : A -> bool) (q : B -> bool) l :
  (forall a, p a = true -> q (f a) = true) ->
  forallb p l = true -> forallb q (f <$> l) = true.
Proof.
  intros Hpq. induction l as [|a l IH]; [done|].
  cbn [forallb fmap list_fmap]. intros [Ha Hl]%andb_prop.
  by rewrite (Hpq _ Ha), (IH Hl).
Qed.

Lemma int_flag_times_100 z :
  (z =? 0) || (z =? 1) = true ->
  (wrap64 (z * 100) =? 0) || (wrap64 (z * 100) =? 100) = true.
Proof. by intros [->%Z.eqb_eq| ->%Z.eqb_eq]%orb_prop. Qed.

Lemma float_flag_times_100 f :
  PrimFloat.eqb f 0 || PrimFloat.eqb f 1 = true ->
  PrimFloat.eqb (PrimFloat.mul f (float_of_int64 100)) 0
  || PrimFloat.eqb (PrimFloat.mul f (float_of_int64 100)) 100 = true.
Proof.
  rewrite !FloatAxioms.eqb_spec, FloatAxioms.mul_spec.
  destruct (Prim2SF f) as [s|s| |s m e] eqn:Hf.
  - intros _. destruct s; vm_compute; reflexivity.
  - destruct s; vm_compute; discriminate.
  - vm_compute; discriminate.
  - intros [Hz|Hone]%orb_prop.
    + destruct s; vm_compute in Hz; discriminate.
    + assert (s = false /\ e = -52 /\ m = 4503599627370496%positive)
        as (-> & -> & ->).
      { change (Prim2SF 1) with (S754_finite false 4503599627370496 (-52)) in Hone.
        unfold SFeqb, SFcompare in Hone.
        destruct s; [discriminate Hone|].
        destruct (e ?= -52) eqn:He; try discriminate Hone.
        destruct (PosDef.Pos.compare_cont Eq m 4503599627370496) eqn:Hm;
          try discriminate Hone.
        split; [reflexivity|]. split.
        - exact (Z.compare_eq _ _ He).
        - exact (Pos.compare_eq m 4503599627370496 Hm). }
      vm_compute. reflexivity.
Qed.

(** A brake channel of flags, times 100, is a channel of 0 and 100. *)
Lemma flags_times_100 s :
  zero_or_one s = true -> zero_or_hundred (series_mul s 100) = true.
Proof.
  destruct s as [l|l|l]; cbn [zero_or_one series_mul zero_or_hundred].
  - intros _. apply forallb_fmap_impl with (p := fun _ => true).
    + by intros [] _.
    + by induction l.
  - apply forallb_fmap_impl, int_flag_times_100.
  - apply forallb_fmap_impl, float_flag_times_100.
Qed.

End Scaling.

(** ** What the panels show *)

Section PanelClaims.
Variables (d1 d2 : string) (x_a x_b : XData) (col_a col_b : string).
Variables (tel_a tel_b tel_a_aligned tel_b_aligned : Telemetry).

Lemma x_axis_returns (tel : Telemetry) : exists xd, x_axis tel = Ok xd.
Proof.
  unfold x_axis. destruct (contains "Distance" tel) eqn:Hd; [|by eexists].
  apply contains_true in Hd as [s Hs]. rewrite (getitem_Some _ _ _ Hs). by eexists.
Qed.

(** C7.  Lines 104-164 never raise, whatever columns the frames lack: the
    two x axes are computed and the four panels are built.  The traces of
    the three distance panels are the guarded ones in source order, each
    present exactly when its channel column is in the frame of its side
    ([channel_trace]); the map panel shows traces only when both loaded
    frames have the position columns. *)
Theorem panels_tolerate_missing_channels :
  exists xa xb p,
    x_axis tel_a_aligned = Ok xa /\
    x_axis tel_b_aligned = Ok xb /\
    panels d1 d2 xa xb col_a col_b tel_a tel_b tel_a_aligned tel_b_aligned = Ok p /\
    data (speed_panel p)
    = speed_traces d1 d2 xa xb col_a col_b tel_a_aligned tel_b_aligned /\
    data (throttle_brake_panel p)
    = throttle_brake_traces d1 d2 xa xb col_a col_b tel_a_aligned tel_b_aligned /\
    data (gear_rpm_panel p)
    = gear_rpm_traces d1 d2 xa xb col_a col_b tel_a_aligned tel_b_aligned /\
    (map_traces (track_map_panel p) <> [] -> has_xy tel_a /\ has_xy tel_b).
Proof.
  destruct (x_axis_returns tel_a_aligned) as [xa Ha].
  destruct (x_axis_returns tel_b_aligned) as [xb Hb].
  destruct (panels_ok d1 d2 xa xb col_a col_b
              tel_a tel_b tel_a_aligned tel_b_aligned) as (m & Hm & Hp).
  exists xa, xb. eexists. do 2 (split; [done|]). split; [exact Hp|]. cbn.
  do 3 (split; [done|]).
  intros Htraces.
  destruct (has_xy_dec tel_a) as [Hxa|Hxa];
    [destruct (has_xy_dec tel_b) as [Hxb|Hxb]|];
    [done|..];
    rewrite map_fig_placeholder in Hm by tauto; by injection Hm as <-.
Qed.

(** C5, amended.  The map panel is the chart with the two position traces,
    drawn from the loaded (not the aligned) frames, exactly when both
    loaded frames have an [X] and a [Y] column, whatever the cells hold;
    otherwise it is the placeholder message and shows no trace. *)
Theorem track_map_iff_position_columns :
  exists p,
    panels d1 d2 x_a x_b col_a col_b tel_a tel_b tel_a_aligned tel_b_aligned = Ok p /\
    ((exists f, track_map_panel p = MapChart f) <-> has_xy tel_a /\ has_xy tel_b) /\
    (forall xa ya xb yb,
       df_columns tel_a !! "X" = Some xa -> df_columns tel_a !! "Y" = Some ya ->
       df_columns tel_b !! "X" = Some xb -> df_columns tel_b !! "Y" = Some yb ->
       map_traces (track_map_panel p)
       = [lines (XColumn xa) ya d1 col_a None;
          lines (XColumn xb) yb d2 col_b None]) /\
    (~ (has_xy tel_a /\ has_xy tel_b) ->
       track_map_panel p = MapInfo map_placeholder /\
       map_traces (track_map_panel p) = []).
Proof.
  destruct (panels_ok d1 d2 x_a x_b col_a col_b
              tel_a tel_b tel_a_aligned tel_b_aligned) as (m & Hm & Hp).
  eexists. split; [exact Hp|]. cbn [track_map_panel].
  split; [|split].
  - split.
    + intros [f ->].
      destruct (has_xy_dec tel_a) as [Ha|Ha];
        [destruct (has_xy_dec tel_b) as [Hb|Hb]|]; [done|..];
        by rewrite map_fig_placeholder in Hm by tauto.
    + intros [[[xa Hxa] [ya Hya]] [[xb Hxb] [yb Hyb]]].
      rewrite (map_fig_chart _ _ _ _ _ _ _ _ _ _ Hxa Hya Hxb Hyb) in Hm.
      injection Hm as <-. by eexists.
  - intros xa ya xb yb Hxa Hya Hxb Hyb.
    rewrite (map_fig_chart _ _ _ _ _ _ _ _ _ _ Hxa Hya Hxb Hyb) in Hm.
    by injection Hm as <-.
  - intros Hno. rewrite (map_fig_placeholder _ _ _ _ _ _ Hno) in Hm.
    by injection Hm as <-.
Qed.

(** C9, amended.  In the throttle and brake panel the brake trace of a side
    plots the [Brake] column times 100 as a dashed line, so a brake channel
    of flags (booleans, or 0 and 1) is drawn as 0 and 100; in the gear and
    RPM panel the RPM trace of a side plots the [RPM] column divided by
    1000 as a dotted line. *)
Theorem brake_times_100_rpm_by_1000 :
  exists p,
    panels d1 d2 x_a x_b col_a col_b tel_a tel_b tel_a_aligned tel_b_aligned = Ok p /\
    (forall brake, df_columns tel_a_aligned !! "Brake" = Some brake ->
       lines x_a (series_mul brake 100) (d1 +:+ " brake%") col_a (Some "dash")
         ∈ data (throttle_brake_panel p) /\
       (zero_or_one brake = true -> zero_or_hundred (series_mul brake 100) = true)) /\
    (forall brake, df_columns tel_b_aligned !! "Brake" = Some brake ->
       lines x_b (series_mul brake 100) (d2 +:+ " brake%") col_b (Some "dash")
         ∈ data (throttle_brake_panel p) /\
       (zero_or_one brake = true -> zero_or_hundred (series_mul brake 100) = true)) /\
    (forall rpm, df_columns tel_a_aligned !! "RPM" = Some rpm ->
       lines x_a (series_truediv rpm 1000) (d1 +:+ " RPM x1000") col_a (Some "dot")
         ∈ data (gear_rpm_panel p)) /\
    (forall rpm, df_columns tel_b_aligned !! "RPM" = Some rpm ->
       lines x_b (series_truediv rpm 1000) (d2 +:+ " RPM x1000") col_b (Some "dot")
         ∈ data (gear_rpm_panel p)).
Proof.
  destruct (panels_ok d1 d2 x_a x_b col_a col_b
              tel_a tel_b tel_a_aligned tel_b_aligned) as (m & Hm & Hp).
  eexists. split; [exact Hp|].
  cbn [throttle_brake_panel gear_rpm_panel update_layout extend data go_Figure app].
  unfold throttle_brake_traces, gear_rpm_traces.
  split; [|split; [|split]].
  - intros brake Hb. split; [|apply flags_times_100].
    rewrite !elem_of_app, !elem_of_channel_trace. eauto 6.
  - intros brake Hb. split; [|apply flags_times_100].
    rewrite !elem_of_app, !elem_of_channel_trace. eauto 8.
  - intros rpm Hr. rewrite !elem_of_app, !elem_of_channel_trace. eauto 8.
  - intros rpm Hr. rewrite !elem_of_app, !elem_of_channel_trace. eauto 8.
Qed.

End PanelClaims.

(** ** The statements on the sample session *)

Module Examples.
Import Sample.

Example labels_of_44 :
  (laps ← load_driver_laps session "44"; getitem laps "LapLabel")
  = Ok [PyStr "1 · 0 days 00:01:32.123000"; PyStr "2 · NaT"].
Proof. vm_compute. reflexivity. Qed.

(** [int] takes no decimal point: the text of a float lap number such as
    ["12.0"] is not read back. *)
Example lnum_rejects_float_text :
  lnum (PyStr "12.0 · 0 days 00:01:32.123000") = Raise (ValueError "12.0").
Proof. vm_compute. reflexivity. Qed.

Example lap_label_round_trip_on_44 :
  exists laps labels,
    load_driver_laps session "44" = Ok laps /\
    df_columns laps !! "LapLabel" = Some labels /\
    labels !! 1%nat = Some (PyStr "2 · NaT") /\
    lnum (PyStr "2 · NaT") = Ok 2.
Proof.
  exact (lap_label_round_trip session "44" _ [PyInt 1; PyInt 2]
           [PyTimedelta 92123000000; PyNaT] 1 2 PyNaT
           eq_refl eq_refl eq_refl eq_refl eq_refl eq_refl).
Qed.

(** C1.  The lap numbers FastF1 delivers are floats, and on such a lap
    table the code does not do what it sets out to do: the labels
    [load_driver_laps] builds start with the text of a float, ["1.0"] and
    ["2.0"], not with an integer; cutting a label at the first separator
    and reading the first piece with [int] raises [ValueError] instead of
    giving the lap number back; and the page, with two such laps picked,
    fails with that error at line 87. *)
Theorem float_lap_numbers_are_not_read_back :
  (exists laps,
     pick_driver session "81" = Ok laps /\
     empty (laps_frame laps) = false /\
     df_columns (laps_frame laps) !! "LapNumber" = Some [PyFloat 1; PyFloat 2]) /\
  (laps ← load_driver_laps session "81"; getitem laps "LapLabel")
  = Ok [PyStr "1.0 · 0 days 00:01:32.123000"; PyStr "2.0 · NaT"] /\
  lnum (PyStr "1.0 · 0 days 00:01:32.123000") = Raise (ValueError "1.0") /\
  lnum (PyStr "2.0 · NaT") = Raise (ValueError "2.0") /\
  (forall show_delta,
     page session "81" "81" 0 1 show_delta = Raise (ValueError "1.0")).
Proof.
  split; [eexists; repeat split; vm_compute; reflexivity|].
  do 3 (split; [vm_compute; reflexivity|]).
  intros [|]; vm_compute; reflexivity.
Qed.

(** C2 as stated fails, twice over.  The driver-info query for 16 succeeds
    and its [TeamName] field is the non-empty ["Ferrari"], yet the answer is
    ["Unknown"], because the record is a pandas [Series] and not a [dict].
    And for a session whose lap data was not loaded the lap lookup raises
    and [_driver_team] raises with it, although the driver-info query would
    have answered. *)
Lemma driver_team_unknown_for_series_and_raising_without_laps :
  (pick_driver session "16"
   = Ok {| laps_frame := no_laps; pick_lap _ := Ok lap_percent |} /\
   lap_level_team no_laps = None /\
   get_driver session "16" = Ok (OSeries (<["TeamName" := PyStr "Ferrari"]> ∅)) /\
   resolve_team info_team_any_record no_laps (get_driver session "16") = "Ferrari" /\
   _driver_team session "16" = Ok "Unknown") /\
  (pick_driver session_without_laps "16"
   = Raise (ProviderError "lap data not loaded") /\
   info_team (get_driver session_without_laps "16") = Some (PyStr "Ferrari") /\
   _driver_team session_without_laps "16"
   = Raise (ProviderError "lap data not loaded")).
Proof. vm_compute. repeat split; reflexivity. Qed.

Lemma driver_team_resolution_witness :
  (pick_driver session "44"
   = Ok {| laps_frame := laps_44; pick_lap _ := Ok lap_bool |} /\
   laps_wf laps_44) /\
  lap_level_team laps_44 = Some (PyStr "Mercedes") /\
  _driver_team session "44" = Ok "Mercedes".
Proof.
  assert (Hwf : laps_wf laps_44).
  { unfold laps_wf. apply (bool_decide_unpack _). vm_compute. exact I. }
  assert (Hteam : lap_level_team laps_44 = Some (PyStr "Mercedes"))
    by (vm_compute; reflexivity).
  split; [split; [reflexivity|exact Hwf]|]. split; [exact Hteam|].
  exact (proj1 (proj2 (driver_team_resolution session "44"
                         {| laps_frame := laps_44; pick_lap _ := Ok lap_bool |}
                         eq_refl Hwf)) _ Hteam).
Defined.

Lemma align_falls_back_witness :
  (get_telemetry lap_bool = Ok tel_bool_brake /\
   get_telemetry lap_percent = Ok tel_percent_brake /\
   load_lap_telemetry session lap_bool = Ok loaded_bool /\
   load_lap_telemetry session lap_percent = Ok loaded_percent /\
   raises (delta_time lap_bool lap_percent)) /\
  align true lap_bool lap_percent loaded_bool loaded_percent
  = Ok (copy loaded_bool, copy loaded_percent) /\
  empty (copy loaded_bool) = empty tel_bool_brake.
Proof.
  assert (Hla : load_lap_telemetry session lap_bool = Ok loaded_bool)
    by (vm_compute; reflexivity).
  assert (Hlb : load_lap_telemetry session lap_percent = Ok loaded_percent)
    by (vm_compute; reflexivity).
  assert (Hraise : raises (delta_time lap_bool lap_percent))
    by (eexists; reflexivity).
  split; [repeat split; assumption || reflexivity|].
  pose proof (align_falls_back session true lap_bool lap_percent
                tel_bool_brake tel_percent_brake loaded_bool loaded_percent
                eq_refl eq_refl Hla Hlb (or_intror (conj eq_refl Hraise)))
    as (Halign & _ & _ & Hempty & _).
  split; assumption.
Defined.

Lemma brake_of_booleans_witness :
  (get_telemetry lap_bool = Ok tel_bool_brake /\
   df_columns tel_bool_brake !! "Brake" = Some (SBool [false; true; true])) /\
  exists tel,
    load_lap_telemetry session lap_bool = Ok tel /\
    df_columns tel !! "Brake" = Some (SInt (Z.b2z <$> [false; true; true])) /\
    zero_or_one (SInt (Z.b2z <$> [false; true; true])) = true.
Proof.
  assert (Hb : df_columns tel_bool_brake !! "Brake" = Some (SBool [false; true; true]))
    by (vm_compute; reflexivity).
  split; [split; [reflexivity|exact Hb]|].
  exact (brake_of_booleans_is_0_or_1 session lap_bool tel_bool_brake _ eq_refl Hb).
Defined.

(** C4 as stated fails: a brake channel that the provider gives as a
    percentage has a [Brake] column, and after loading the column still
    holds 100. *)
Lemma brake_percentage_survives_loading :
  is_Some (df_columns tel_percent_brake !! "Brake") /\
  exists tel,
    load_lap_telemetry session lap_percent = Ok tel /\
    df_columns tel !! "Brake" = Some (SInt [0; 100]) /\
    zero_or_one (SInt [0; 100]) = false.
Proof.
  split; [by eexists|]. exists loaded_percent.
  split; [vm_compute; reflexivity|]. split; [vm_compute; reflexivity|reflexivity].
Qed.

Lemma load_keeps_other_columns_witness :
  load_lap_telemetry session lap_bool = Ok loaded_bool /\
  df_columns loaded_bool !! "RPM" = df_columns tel_bool_brake !! "RPM" /\
  dom (df_columns loaded_bool) = dom (df_columns tel_bool_brake).
Proof.
  assert (Hl : load_lap_telemetry session lap_bool = Ok loaded_bool)
    by (vm_compute; reflexivity).
  split; [exact Hl|].
  destruct (load_keeps_other_columns session lap_bool loaded_bool Hl)
    as (raw & Hraw & Hcols & Hdom).
  injection Hraw as <-. split; [|exact Hdom].
  apply Hcols. discriminate.
Defined.

Lemma x_axis_of_loaded :
  x_axis loaded_bool = Ok (XIndex [0; 1; 2]).
Proof. vm_compute. reflexivity. Qed.

Lemma color_resolution_witness :
  raises (team_color "Unknown") /\
  color_a "Mercedes" = Ok "#27f4d2" /\
  color_a "Unknown" = Ok "#1f77b4" /\
  color_b "Unknown" = Ok "#ff7f0e".
Proof.
  assert (Hr : raises (team_color "Unknown")) by (eexists; reflexivity).
  split; [exact Hr|]. split.
  - exact (proj1 (proj1 (color_resolution "Mercedes") "#27f4d2" eq_refl)).
  - exact (proj1 (proj2 (color_resolution "Unknown")) Hr).
Defined.

Lemma panels_tolerate_missing_channels_witness :
  df_columns loaded_percent !! "Distance" = None /\
  df_columns loaded_percent !! "Speed" = None /\
  df_columns loaded_percent !! "RPM" = None /\
  exists x_a x_b p,
    x_axis loaded_bool = Ok x_a /\
    x_axis loaded_percent = Ok x_b /\
    panels "44" "16" x_a x_b "#27f4d2" "#ff7f0e"
      loaded_bool loaded_percent loaded_bool loaded_percent = Ok p /\
    length (data (speed_panel p)) = 1%nat /\
    length (data (throttle_brake_panel p)) = 2%nat /\
    length (data (gear_rpm_panel p)) = 1%nat.
Proof.
  do 3 (split; [vm_compute; reflexivity|]).
  destruct (panels_tolerate_missing_channels "44" "16" "#27f4d2" "#ff7f0e"
              loaded_bool loaded_percent loaded_bool loaded_percent)
    as (x_a & x_b & p & Ha & Hb & Hp & H1 & H2 & H3 & _).
  exists x_a, x_b, p. do 3 (split; [assumption|]).
  rewrite H1, H2, H3. vm_compute. repeat split.
Defined.

(** The whole page on the sample: both selectors on driver 44, alignment
    requested and failing. *)
Example page_of_sample_renders :
  exists p, page session "44" "44" 0 1 true = Ok (PagePanels p).
Proof. eexists. vm_compute. reflexivity. Qed.

(** No lap for driver 16: the page shows the warning. *)
Example page_without_laps_warns :
  page session "44" "16" 0 0 true
  = Ok (PageWarning "Select valid drivers and laps to render telemetry.").
Proof. vm_compute. reflexivity. Qed.

(** C5 as stated fails: the position columns of this frame hold no value
    that is not null, and the map is drawn all the same, with both traces. *)
Lemma track_map_drawn_over_null_positions :
  ~ has_notna_column "X" loaded_percent /\
  ~ has_some_notna "X" loaded_percent /\
  exists p f,
    panels "16" "16" (XIndex [0; 1]) (XIndex [0; 1]) "#1f77b4" "#ff7f0e"
      loaded_percent loaded_percent loaded_percent loaded_percent = Ok p /\
    track_map_panel p = MapChart f /\
    length (data f) = 2%nat.
Proof.
  split; [|split].
  - intros (s & Hs & Hn). vm_compute in Hs. injection Hs as <-. discriminate Hn.
  - intros (s & Hs & Hn). vm_compute in Hs. injection Hs as <-.
    destruct Hn as (f & Hf & Hnan).
    apply list_elem_of_In in Hf. cbn in Hf.
    destruct Hf as [<-|[<-|[]]]; discriminate Hnan.
  - eexists _, _. split; [vm_compute; reflexivity|]. split; reflexivity.
Qed.

Lemma track_map_witness :
  (has_xy loaded_bool /\ has_xy loaded_percent) /\
  exists p f,
    panels "44" "16" (XIndex [0; 1; 2]) (XIndex [0; 1]) "#27f4d2" "#ff7f0e"
      loaded_bool loaded_percent loaded_bool loaded_percent = Ok p /\
    track_map_panel p = MapChart f.
Proof.
  assert (Hxy : has_xy loaded_bool /\ has_xy loaded_percent).
  { repeat split; eexists; vm_compute; reflexivity. }
  split; [exact Hxy|].
  destruct (track_map_iff_position_columns "44" "16"
              (XIndex [0; 1; 2]) (XIndex [0; 1]) "#27f4d2" "#ff7f0e"
              loaded_bool loaded_percent loaded_bool loaded_percent)
    as (p & Hp & Hiff & _).
  destruct (proj2 Hiff Hxy) as [f Hf].
  by exists p, f.
Defined.

(** C9 as stated fails: the brake trace of a channel given as a percentage
    holds 100 * 100, neither 0 nor 100. *)
Lemma brake_percentage_plotted_times_100 :
  df_columns loaded_percent !! "Brake" = Some (SInt [0; 100]) /\
  series_mul (SInt [0; 100]) 100 = SInt [0; 10000] /\
  zero_or_hundred (SInt [0; 10000]) = false /\
  exists p,
    panels "44" "16" (XIndex [0; 1; 2]) (XIndex [0; 1]) "#27f4d2" "#ff7f0e"
      loaded_bool loaded_percent loaded_bool loaded_percent = Ok p /\
    lines (XIndex [0; 1]) (SInt [0; 10000]) "16 brake%" "#ff7f0e" (Some "dash")
      ∈ data (throttle_brake_panel p).
Proof.
  do 3 (split; [vm_compute; reflexivity|]).
  eexists. split; [vm_compute; reflexivity|].
  apply list_elem_of_In. cbn. right. left. reflexivity.
Qed.

Lemma brake_times_100_witness :
  df_columns loaded_bool !! "Brake" = Some (SInt [0; 1; 1]) /\
  zero_or_one (SInt [0; 1; 1]) = true /\
  series_mul (SInt [0; 1; 1]) 100 = SInt [0; 100; 100] /\
  series_truediv (SInt [11500; 9500; 7000]) 1000
  = SFloat [11.5; 9.5; 7]%float /\
  exists p,
    panels "44" "16" (XIndex [0; 1; 2]) (XIndex [0; 1]) "#27f4d2" "#ff7f0e"
      loaded_bool loaded_percent loaded_bool loaded_percent = Ok p /\
    lines (XIndex [0; 1; 2]) (series_mul (SInt [0; 1; 1]) 100)
      ("44" +:+ " brake%") "#27f4d2" (Some "dash")
      ∈ data (throttle_brake_panel p) /\
    zero_or_hundred (series_mul (SInt [0; 1; 1]) 100) = true.
Proof.
  assert (Hb : df_columns loaded_bool !! "Brake" = Some (SInt [0; 1; 1]))
    by (vm_compute; reflexivity).
  split; [exact Hb|]. do 3 (split; [vm_compute; reflexivity|]).
  destruct (brake_times_100_rpm_by_1000 "44" "16"
              (XIndex [0; 1; 2]) (XIndex [0; 1]) "#27f4d2" "#ff7f0e"
              loaded_bool loaded_percent loaded_bool loaded_percent)
    as (p & Hp & Hbrake & _).
  destruct (Hbrake _ Hb) as [Hin H100].
  exists p. split; [exact Hp|]. split; [exact Hin|]. exact (H100 eq_refl).
Defined.

End Examples.

(** * The rest of the page: facts *)

(** ** Laps and labels, beyond the round trip *)

Section MoreLapFacts.
Context `{Pandas}.
Variables (session : Session) (code : string).

Lemma load_driver_laps_lookup_raises e :
  pick_driver session code = Raise e -> load_driver_laps session code = Raise e.
Proof. intros Hlaps. unfold load_driver_laps. by rewrite Hlaps. Qed.

Lemma load_driver_laps_no_laps laps :
  pick_driver session code = Ok laps ->
  empty (laps_frame laps) = true ->
  load_driver_laps session code = Ok (reset_index (laps_frame laps)).
Proof.
  intros Hlaps He. unfold load_driver_laps, copy. rewrite Hlaps.
  cbn [mbind result_bind]. by rewrite empty_reset_index, He.
Qed.

Lemma load_driver_laps_labelled laps numbers times :
  pick_driver session code = Ok laps ->
  empty (laps_frame laps) = false ->
  df_columns (laps_frame laps) !! "LapTime" = Some times ->
  df_columns (laps_frame laps) !! "LapNumber" = Some numbers ->
  load_driver_laps session code
  = Ok (setitem (reset_index (laps_frame laps)) "LapLabel"
          (text_cells (str_add (str_add_scalar (astype_str numbers) " · ")
                         (fillna "NaT" (astype_str times))))).
Proof.
  intros Hlaps He Ht Hn. unfold load_driver_laps, copy. rewrite Hlaps.
  cbn [mbind result_bind]. rewrite empty_reset_index, He. cbn [negb].
  rewrite !getitem_reset_index, (getitem_Some _ _ _ Ht). cbn [mbind result_bind].
  by rewrite (getitem_Some _ _ _ Hn).
Qed.

Lemma load_driver_laps_no_time laps :
  pick_driver session code = Ok laps ->
  empty (laps_frame laps) = false ->
  df_columns (laps_frame laps) !! "LapTime" = None ->
  load_driver_laps session code = Raise (KeyError "LapTime").
Proof.
  intros Hlaps He Ht. unfold load_driver_laps, copy. rewrite Hlaps.
  cbn [mbind result_bind]. rewrite empty_reset_index, He. cbn [negb].
  rewrite !getitem_reset_index.
  rewrite (getitem_raises _ "LapTime"); [done|by apply contains_false].
Qed.

Lemma load_driver_laps_no_number laps :
  pick_driver session code = Ok laps ->
  empty (laps_frame laps) = false ->
  is_Some (df_columns (laps_frame laps) !! "LapTime") ->
  df_columns (laps_frame laps) !! "LapNumber" = None ->
  load_driver_laps session code = Raise (KeyError "LapNumber").
Proof.
  intros Hlaps He [times Ht] Hn. unfold load_driver_laps, copy. rewrite Hlaps.
  cbn [mbind result_bind]. rewrite empty_reset_index, He. cbn [negb].
  rewrite !getitem_reset_index, (getitem_Some _ _ _ Ht). cbn [mbind result_bind].
  rewrite (getitem_raises _ "LapNumber"); [done|by apply contains_false].
Qed.

(** X1.  [load_driver_laps] fails in two ways only.  The lap lookup
    raises, and that error is passed on.  Or the lookup returns, the driver
    has laps and the lap table lacks the [LapTime] or the [LapNumber]
    column; the error is then the [KeyError] of the first missing one,
    [LapTime] before [LapNumber].  A driver without laps never fails,
    whatever columns the table has. *)
Theorem load_driver_laps_failure :
  (forall e, pick_driver session code = Raise e ->
     load_driver_laps session code = Raise e) /\
  (forall laps, pick_driver session code = Ok laps ->
     (raises (load_driver_laps session code) <->
      empty (laps_frame laps) = false /\
      (df_columns (laps_frame laps) !! "LapTime" = None \/
       df_columns (laps_frame laps) !! "LapNumber" = None)) /\
     (empty (laps_frame laps) = false ->
      df_columns (laps_frame laps) !! "LapTime" = None ->
      load_driver_laps session code = Raise (KeyError "LapTime")) /\
     (empty (laps_frame laps) = false ->
      is_Some (df_columns (laps_frame laps) !! "LapTime") ->
      df_columns (laps_frame laps) !! "LapNumber" = None ->
      load_driver_laps session code = Raise (KeyError "LapNumber"))).
Proof.
  split; [apply load_driver_laps_lookup_raises|]. intros laps Hlaps.
  split; [|split; [by apply load_driver_laps_no_time
                  |by apply load_driver_laps_no_number]].
  destruct (empty (laps_frame laps)) eqn:He.
  { rewrite (load_driver_laps_no_laps _ Hlaps He).
    split; [by intros [e ?]|by intros [[=] _]]. }
  destruct (df_columns (laps_frame laps) !! "LapTime") as [times|] eqn:Ht.
  - destruct (df_columns (laps_frame laps) !! "LapNumber") as [numbers|] eqn:Hn.
    + rewrite (load_driver_laps_labelled _ _ _ Hlaps He Ht Hn).
      split; [by intros [e ?]|by intros [_ [?|?]]].
    + rewrite (load_driver_laps_no_number _ Hlaps He) by eauto.
      split; [by auto|by eexists].
  - rewrite (load_driver_laps_no_time _ Hlaps He) by done.
    split; [by auto|by eexists].
Qed.

Lemma label_column_length (numbers times : list PyVal) :
  length (text_cells (str_add (str_add_scalar (astype_str numbers) " · ")
                        (fillna "NaT" (astype_str times))))
  = Nat.min (length numbers) (length times).
Proof.
  unfold text_cells, str_add, str_add_scalar, fillna, astype_str.
  by rewrite length_fmap, length_zip_with, !length_fmap.
Qed.

(** X2.  [load_driver_laps] keeps a well-formed lap table well formed: the
    rows are renumbered 0 .. n-1, every column other than [LapLabel] is the
    provider's, and the label column, when added, has one label per row. *)
Theorem load_driver_laps_well_formed (laps : Laps) (laps' : LapsFrame) :
  pick_driver session code = Ok laps ->
  laps_wf (laps_frame laps) ->
  load_driver_laps session code = Ok laps' ->
  laps_wf laps' /\
  df_index laps'
  = seqZ 0 (Z.of_nat (length (df_index (laps_frame laps)))) /\
  (forall k, k <> "LapLabel" ->
     df_columns laps' !! k = df_columns (laps_frame laps) !! k).
Proof.
  intros Hlaps Hwf Hload.
  assert (Hlen : length (seqZ 0 (Z.of_nat (length (df_index (laps_frame laps)))))
                 = length (df_index (laps_frame laps))).
  { rewrite length_seqZ. lia. }
  destruct (empty (laps_frame laps)) eqn:He.
  { rewrite (load_driver_laps_no_laps _ Hlaps He) in Hload. injection Hload as <-.
    split; [|done]. unfold laps_wf. cbn [reset_index df_index df_columns].
    by rewrite Hlen. }
  destruct (df_columns (laps_frame laps) !! "LapTime") as [times|] eqn:Ht;
    [|by rewrite (load_driver_laps_no_time _ Hlaps He Ht) in Hload].
  destruct (df_columns (laps_frame laps) !! "LapNumber") as [numbers|] eqn:Hn;
    [|by rewrite (load_driver_laps_no_number _ Hlaps He (mk_is_Some _ _ Ht) Hn)
          in Hload].
  rewrite (load_driver_laps_labelled _ _ _ Hlaps He Ht Hn) in Hload.
  injection Hload as <-.
  cbn [setitem reset_index df_index df_columns]. split; [|split; [done|]].
  - unfold laps_wf. cbn [setitem reset_index df_index df_columns]. rewrite Hlen.
    apply map_Forall_insert_2; [|exact Hwf].
    rewrite label_column_length, (Hwf _ _ Hn), (Hwf _ _ Ht). lia.
  - intros k Hk. by rewrite lookup_insert_ne.
Qed.

(** The text before the first separator decides what [lnum] reads. *)
Lemma lnum_prefix d t :
  PyString.all_chars (fun c => negb (Ascii.eqb " " c)) d = true ->
  lnum (PyStr (d +:+ " · " +:+ t)) = PyString.int d.
Proof.
  intros Hd. unfold lnum. cbn [py_str]. unfold PyString.split.
  cbn [mbind result_bind].
  rewrite (first_split_fuel _ _ _ d t); [done|].
  by apply partition_first.
Qed.

(** X3.  [lnum] reads a label up to the first separator only.  When the
    text in front of [" · "] is ASCII text without a blank, of no more than
    4300 characters, the result is [int] of that text, be it a number or a
    [ValueError], and the time part never matters. *)
Theorem lnum_reads_front_part (d t : string) :
  PyString.all_chars PyString.is_ascii d = true ->
  (String.length d <= 4300)%nat ->
  PyString.all_chars (fun c => negb (Ascii.eqb " " c)) d = true ->
  lnum (PyStr (d +:+ " · " +:+ t)) = PyString.int d /\
  (forall t', lnum (PyStr (d +:+ " · " +:+ t')) = lnum (PyStr (d +:+ " · " +:+ t))).
Proof.
  intros _ _ Hd. rewrite (lnum_prefix _ t Hd). split; [done|].
  intros t'. by rewrite (lnum_prefix _ t' Hd).
Qed.

(** X4.  Labels tell laps apart: two rows of a driver's lap table with
    different integer lap numbers never get the same label, whatever their
    lap times. *)
Theorem labels_distinguish_laps (laps : Laps) (numbers : list PyVal)
    (laps' : LapsFrame) (labels : list PyVal) (i j : nat) (n1 n2 : Z)
    (l1 l2 : PyVal) :
  pick_driver session code = Ok laps ->
  empty (laps_frame laps) = false ->
  df_columns (laps_frame laps) !! "LapNumber" = Some numbers ->
  load_driver_laps session code = Ok laps' ->
  df_columns laps' !! "LapLabel" = Some labels ->
  numbers !! i = Some (PyInt n1) ->
  numbers !! j = Some (PyInt n2) ->
  labels !! i = Some l1 ->
  labels !! j = Some l2 ->
  n1 <> n2 ->
  l1 <> l2.
Proof.
  intros Hlaps He Hn Hload Hlab Hi Hj Hli Hlj Hne ->. apply Hne.
  destruct (df_columns (laps_frame laps) !! "LapTime") as [times|] eqn:Ht;
    [|by rewrite (load_driver_laps_no_time _ Hlaps He Ht) in Hload].
  rewrite (load_driver_laps_labelled _ _ _ Hlaps He Ht Hn) in Hload.
  injection Hload as <-.
  cbn [setitem df_columns] in Hlab. rewrite lookup_insert_eq in Hlab.
  injection Hlab as <-.
  assert (Hti : is_Some (times !! i)).
  { apply lookup_lt_is_Some. apply lookup_lt_Some in Hli.
    rewrite label_column_length in Hli. lia. }
  assert (Htj : is_Some (times !! j)).
  { apply lookup_lt_is_Some. apply lookup_lt_Some in Hlj.
    rewrite label_column_length in Hlj. lia. }
  destruct Hti as [ti Hti], Htj as [tj Htj].
  rewrite (label_cell _ _ _ _ _ Hi Hti) in Hli.
  rewrite (label_cell _ _ _ _ _ Hj Htj) in Hlj.
  injection Hli as <-. injection Hlj as Heq. cbn [cell_str py_str] in Heq.
  pose proof (lnum_label n1 (cell_str (long_format times) ti)) as H1.
  rewrite <-Heq, lnum_label in H1. by injection H1.
Qed.

End MoreLapFacts.

(** ** Telemetry of a lap, beyond the brake values *)

Section MoreTelemetryFacts.
Variable session : Session.

Lemma astype_int_returns s s' :
  astype_int s = Ok s' -> exists l, s' = SInt l /\ length l = series_length s.
Proof.
  destruct s as [l|l|l]; cbn [astype_int series_length].
  - intros [= <-]. eexists. split; [done|]. by rewrite length_fmap.
  - intros [= <-]. by eexists.
  - destruct (forallb float_finite l); [|done].
    intros [= <-]. eexists. split; [done|]. by rewrite length_fmap.
Qed.

Lemma astype_int_raises s :
  raises (astype_int s) <->
  exists l, s = SFloat l /\ forallb float_finite l = false.
Proof.
  destruct s as [l|l|l]; cbn [astype_int].
  - split; [by intros [e ?]|by intros (? & ? & ?)].
  - split; [by intros [e ?]|by intros (? & ? & ?)].
  - destruct (forallb float_finite l) eqn:Hf.
    + split; [by intros [e ?]|intros (l' & [= <-] & Hl'); congruence].
    + split; [by exists l|by eexists].
Qed.

Lemma reset_index_idem {C} (df : DataFrame C) :
  reset_index (reset_index df) = reset_index df.
Proof.
  unfold reset_index. cbn [df_index df_columns]. f_equal.
  rewrite length_seqZ. f_equal. lia.
Qed.

(** X5.  [load_lap_telemetry] fails in two ways only: the provider's
    [get_telemetry] raises, and that error is passed on; or the [Brake]
    column is a float column holding NaN or an infinity, and the error is
    the cast's.  With a boolean or integer brake, with finite floats or
    without a brake column it returns. *)
Theorem load_lap_telemetry_failure (lap : Lap) :
  (forall e, get_telemetry lap = Raise e ->
     load_lap_telemetry session lap = Raise e) /\
  (forall raw, get_telemetry lap = Ok raw ->
     (raises (load_lap_telemetry session lap) <->
      exists l, df_columns raw !! "Brake" = Some (SFloat l) /\
                forallb float_finite l = false) /\
     (forall e, load_lap_telemetry session lap = Raise e ->
        e = IntCastingNaNError)).
Proof.
  split.
  { intros e He. unfold load_lap_telemetry. by rewrite He. }
  intros raw Hraw.
  destruct (df_columns raw !! "Brake") as [brake|] eqn:Hb.
  - rewrite (load_lap_telemetry_brake _ _ _ _ Hraw Hb).
    destruct brake as [l|l|l]; cbn [astype_int mbind result_bind mret result_ret].
    + split; [|done]. split; [by intros [e ?]|by intros (? & ? & ?)].
    + split; [|done]. split; [by intros [e ?]|by intros (? & ? & ?)].
    + destruct (forallb float_finite l) eqn:Hf; cbn [mbind result_bind].
      * split; [|done].
        split; [by intros [e ?]|intros (l' & [= <-] & Hl'); congruence].
      * split; [|by intros e [= <-]]. split; [by exists l|by eexists].
  - rewrite (load_lap_telemetry_no_brake _ _ _ Hraw Hb).
    split; [|done]. split; [by intros [e ?]|by intros (? & ? & ?)].
Qed.

(** X6.  Loading is idempotent: a frame that [load_lap_telemetry] returned,
    handed back as a lap's telemetry, is returned unchanged. *)
Theorem load_lap_telemetry_idempotent (lap lap' : Lap) (tel : Telemetry) :
  load_lap_telemetry session lap = Ok tel ->
  get_telemetry lap' = Ok tel ->
  load_lap_telemetry session lap' = Ok tel.
Proof.
  intros Hload Hraw'.
  destruct (get_telemetry lap) as [raw|e] eqn:Hraw;
    [|by unfold load_lap_telemetry in Hload; rewrite Hraw in Hload].
  destruct (df_columns raw !! "Brake") as [brake|] eqn:Hb.
  - rewrite (load_lap_telemetry_brake _ _ _ _ Hraw Hb) in Hload.
    destruct (astype_int brake) as [brake'|e] eqn:Hcast; [|done].
    injection Hload as <-.
    destruct (astype_int_returns _ _ Hcast) as (l & -> & _).
    rewrite (load_lap_telemetry_brake _ lap' _ (SInt l) Hraw')
      by (cbn [setitem df_columns]; apply lookup_insert_eq).
    cbn [astype_int mbind result_bind mret result_ret]. f_equal.
    unfold setitem, reset_index. cbn [df_index df_columns]. f_equal.
    + rewrite length_seqZ. f_equal. lia.
    + apply insert_insert_eq.
  - rewrite (load_lap_telemetry_no_brake _ _ _ Hraw Hb) in Hload.
    injection Hload as <-.
    rewrite (load_lap_telemetry_no_brake _ lap' _ Hraw') by done.
    by rewrite reset_index_idem.
Qed.

(** X7.  A loaded frame has the rows renumbered 0 .. n-1, n the number of
    rows the provider gave, and its [Brake] column, when there is one, is
    an integer column with as many values as the provider's. *)
Theorem loaded_frame_shape (lap : Lap) (raw tel : Telemetry) :
  get_telemetry lap = Ok raw ->
  load_lap_telemetry session lap = Ok tel ->
  df_index tel = seqZ 0 (Z.of_nat (length (df_index raw))) /\
  (forall s, df_columns tel !! "Brake" = Some s ->
     exists l brake,
       s = SInt l /\ df_columns raw !! "Brake" = Some brake /\
       length l = series_length brake) /\
  (df_columns raw !! "Brake" = None -> df_columns tel !! "Brake" = None).
Proof.
  intros Hraw Hload.
  destruct (df_columns raw !! "Brake") as [brake|] eqn:Hb.
  - rewrite (load_lap_telemetry_brake _ _ _ _ Hraw Hb) in Hload.
    destruct (astype_int brake) as [brake'|e] eqn:Hcast; [|done].
    injection Hload as <-.
    destruct (astype_int_returns _ _ Hcast) as (l & -> & Hlen).
    split; [done|]. split; [|done].
    intros s. cbn [setitem df_columns]. rewrite lookup_insert_eq.
    intros [= <-]. by exists l, brake.
  - rewrite (load_lap_telemetry_no_brake _ _ _ Hraw Hb) in Hload.
    injection Hload as <-. split; [done|]. split; [|done].
    intros s. cbn [reset_index df_columns]. by rewrite Hb.
Qed.

(** X8.  Without alignment the x data of a side is the provider's
    [Distance] column, untouched by the load, and for a frame without that
    column the row numbers 0 .. n-1. *)
Theorem x_axis_of_loaded_frame (lap : Lap) (raw tel : Telemetry) :
  get_telemetry lap = Ok raw ->
  load_lap_telemetry session lap = Ok tel ->
  x_axis (copy tel)
  = Ok (match df_columns raw !! "Distance" with
        | Some distance => XColumn distance
        | None => XIndex (seqZ 0 (Z.of_nat (length (df_index raw))))
        end).
Proof.
  intros Hraw Hload.
  destruct (load_lap_telemetry_inv _ _ _ Hload) as (raw' & Hraw' & Hidx & Hcases).
  assert (raw' = raw) as -> by congruence.
  assert (Hd : df_columns tel !! "Distance" = df_columns raw !! "Distance").
  { destruct Hcases as [->|(brake & brake' & _ & _ & ->)]; [done|].
    cbn [setitem df_columns reset_index]. by rewrite lookup_insert_ne. }
  unfold copy, x_axis, contains, getitem. rewrite Hd, Hidx.
  destruct (df_columns raw !! "Distance") as [d|].
  - by rewrite bool_decide_eq_true_2 by eauto.
  - by rewrite bool_decide_eq_false_2 by (by intros [? ?]).
Qed.

End MoreTelemetryFacts.

(** ** The render pass as a whole *)

Section RenderPassFacts.
Context `{Pandas} `{FastF1}.
Variables (session : Session) (d1 d2 : string).

Ltac step := cbn [mbind result_bind mret result_ret].

Lemma align_returns show_delta lap_a lap_b tel_a tel_b :
  exists aligned, align show_delta lap_a lap_b tel_a tel_b = Ok aligned.
Proof.
  unfold align. destruct show_delta; [|by eexists].
  destruct (delta_time lap_a lap_b) as [[[dt a] b]|e]; by eexists.
Qed.

Lemma color_a_returns team : exists c, color_a team = Ok c.
Proof. unfold color_a. destruct (team_color team); by eexists. Qed.

Lemma color_b_returns team : exists c, color_b team = Ok c.
Proof. unfold color_b. destruct (team_color team); by eexists. Qed.

(** [render] is the guard, the two label parses and [render_laps]. *)
Lemma render_unfold laps_d1 laps_d2 lap1 lap2 show_delta :
  negb (empty laps_d1) && negb (empty laps_d2) && truthy lap1 && truthy lap2 = true ->
  render session d1 d2 laps_d1 laps_d2 lap1 lap2 show_delta
  = lnum1 ← lnum lap1;
    lnum2 ← lnum lap2;
    p ← render_laps session d1 d2 lnum1 lnum2 show_delta;
    mret (PagePanels p).
Proof.
  intros Hguard. unfold render, render_laps. rewrite Hguard.
  destruct (lnum lap1) as [n1|]; step; [|done].
  destruct (lnum lap2) as [n2|]; step; [|done].
  destruct (pick_driver session d1) as [laps1|]; step; [|done].
  destruct (pick_lap laps1 n1) as [lap_a|]; step; [|done].
  destruct (pick_driver session d2) as [laps2|]; step; [|done].
  destruct (pick_lap laps2 n2) as [lap_b|]; step; [|done].
  destruct (load_lap_telemetry session lap_a); step; [|done].
  destruct (load_lap_telemetry session lap_b); step; [|done].
  destruct (align _ _ _ _ _) as [[ta tb]|]; step; [|done].
  destruct (x_axis ta); step; [|done].
  destruct (x_axis tb); step; [|done].
  destruct (_driver_team session d1); step; [|done].
  destruct (_driver_team session d2); step; [|done].
  destruct (color_a _); step; [|done].
  destruct (color_b _); step; [|done].
  done.
Qed.

(** The two laps are found and their telemetry loads (lines 90-94). *)
Lemma render_laps_inv n1 n2 show_delta p :
  render_laps session d1 d2 n1 n2 show_delta = Ok p ->
  exists laps1 laps2 lap_a lap_b tel_a tel_b,
    pick_driver session d1 = Ok laps1 /\ pick_lap laps1 n1 = Ok lap_a /\
    pick_driver session d2 = Ok laps2 /\ pick_lap laps2 n2 = Ok lap_b /\
    load_lap_telemetry session lap_a = Ok tel_a /\
    load_lap_telemetry session lap_b = Ok tel_b.
Proof.
  unfold render_laps.
  destruct (pick_driver session d1) as [laps1|]; step; [|done].
  destruct (pick_lap laps1 n1) as [lap_a|] eqn:Ha; step; [|done].
  destruct (pick_driver session d2) as [laps2|]; step; [|done].
  destruct (pick_lap laps2 n2) as [lap_b|] eqn:Hb; step; [|done].
  destruct (load_lap_telemetry session lap_a) as [tel_a|] eqn:Hta; step; [|done].
  destruct (load_lap_telemetry session lap_b) as [tel_b|] eqn:Htb; step; [|done].
  intros _. by exists laps1, laps2, lap_a, lap_b, tel_a, tel_b.
Qed.

(** Once both laps are loaded nothing can fail any more. *)
Lemma render_laps_returns n1 n2 show_delta laps1 laps2 lap_a lap_b tel_a tel_b :
  pick_driver session d1 = Ok laps1 ->
  pick_driver session d2 = Ok laps2 ->
  laps_wf (laps_frame laps1) ->
  laps_wf (laps_frame laps2) ->
  pick_lap laps1 n1 = Ok lap_a ->
  pick_lap laps2 n2 = Ok lap_b ->
  load_lap_telemetry session lap_a = Ok tel_a ->
  load_lap_telemetry session lap_b = Ok tel_b ->
  exists p, render_laps session d1 d2 n1 n2 show_delta = Ok p.
Proof.
  intros Hl1 Hl2 Hwf1 Hwf2 Hp1 Hp2 Ha Hb. unfold render_laps.
  rewrite Hl1. step. rewrite Hp1. step. rewrite Hl2. step. rewrite Hp2. step.
  rewrite Ha, Hb. step.
  destruct (align_returns show_delta lap_a lap_b tel_a tel_b) as [[ta tb] ->]. step.
  destruct (x_axis_returns ta) as [xa ->]. step.
  destruct (x_axis_returns tb) as [xb ->]. step.
  rewrite (driver_team_chain _ _ _ Hl1 Hwf1), (driver_team_chain _ _ _ Hl2 Hwf2). step.
  destruct (color_a_returns
              (resolve_team info_team (laps_frame laps1) (get_driver session d1)))
    as [ca ->]. step.
  destruct (color_b_returns
              (resolve_team info_team (laps_frame laps2) (get_driver session d2)))
    as [cb ->]. step.
  destruct (panels_ok d1 d2 xa xb ca cb tel_a tel_b ta tb) as (m & _ & ->).
  by eexists.
Qed.

(** X9.  When the page gets past its guard, the four panels are drawn
    exactly when both labels parse, both laps are found and the telemetry
    of both loads: a failure of the alignment, of the driver-info query or
    of the colour lookup never escapes, a failing parse, lookup or load is
    never swallowed, and the warning is not shown. *)
Theorem render_draws_iff_parsed_and_loaded
    (laps_d1 laps_d2 : LapsFrame) (lap1 lap2 : PyVal) (show_delta : bool) :
  negb (empty laps_d1) && negb (empty laps_d2) && truthy lap1 && truthy lap2 = true ->
  (forall laps, pick_driver session d1 = Ok laps -> laps_wf (laps_frame laps)) ->
  (forall laps, pick_driver session d2 = Ok laps -> laps_wf (laps_frame laps)) ->
  ((exists p, render session d1 d2 laps_d1 laps_d2 lap1 lap2 show_delta
              = Ok (PagePanels p)) <->
   exists n1 n2 laps1 laps2 lap_a lap_b tel_a tel_b,
     lnum lap1 = Ok n1 /\ lnum lap2 = Ok n2 /\
     pick_driver session d1 = Ok laps1 /\ pick_lap laps1 n1 = Ok lap_a /\
     pick_driver session d2 = Ok laps2 /\ pick_lap laps2 n2 = Ok lap_b /\
     load_lap_telemetry session lap_a = Ok tel_a /\
     load_lap_telemetry session lap_b = Ok tel_b) /\
  (forall msg, render session d1 d2 laps_d1 laps_d2 lap1 lap2 show_delta
               <> Ok (PageWarning msg)).
Proof.
  intros Hguard Hwf1 Hwf2. rewrite (render_unfold _ _ _ _ _ Hguard).
  destruct (lnum lap1) as [n1|e1]; step;
    [|split; [split; [by intros [? ?]|by intros (? & ? & ? & ? & ? & ? & ? & ? & ? & _)]
             |done]].
  destruct (lnum lap2) as [n2|e2]; step;
    [|split; [split; [by intros [? ?]
                     |by intros (? & ? & ? & ? & ? & ? & ? & ? & _ & ? & _)]
             |done]].
  destruct (render_laps session d1 d2 n1 n2 show_delta) as [p|e] eqn:Hr; step.
  - split; [|done]. split; [intros _|by eexists].
    destruct (render_laps_inv _ _ _ _ Hr)
      as (laps1 & laps2 & lap_a & lap_b & tel_a & tel_b & ? & ? & ? & ? & ? & ?).
    by exists n1, n2, laps1, laps2, lap_a, lap_b, tel_a, tel_b.
  - split; [|done]. split; [by intros [? ?]|].
    intros (m1 & m2 & laps1 & laps2 & lap_a & lap_b & tel_a & tel_b
            & [= <-] & [= <-] & Hl1 & Hp1 & Hl2 & Hp2 & Ha & Hb).
    destruct (render_laps_returns n1 n2 show_delta _ _ _ _ _ _
                Hl1 Hl2 (Hwf1 _ Hl1) (Hwf2 _ Hl2) Hp1 Hp2 Ha Hb) as [p Hp].
    congruence.
Qed.

(** X10.  An alignment that fails changes nothing: the page with alignment
    requested and [delta_time] raising on the two picked laps is the page
    with alignment off. *)
Theorem failed_alignment_is_no_alignment
    (laps_d1 laps_d2 : LapsFrame) (lap1 lap2 : PyVal) (n1 n2 : Z) :
  lnum lap1 = Ok n1 ->
  lnum lap2 = Ok n2 ->
  (forall laps1 laps2 lap_a lap_b,
     pick_driver session d1 = Ok laps1 -> pick_lap laps1 n1 = Ok lap_a ->
     pick_driver session d2 = Ok laps2 -> pick_lap laps2 n2 = Ok lap_b ->
     raises (delta_time lap_a lap_b)) ->
  render session d1 d2 laps_d1 laps_d2 lap1 lap2 true
  = render session d1 d2 laps_d1 laps_d2 lap1 lap2 false.
Proof.
  intros H1 H2 Hraises. unfold render. rewrite H1, H2. step.
  destruct (_ && _); [|done].
  destruct (pick_driver session d1) as [laps1|] eqn:Hl1; step; [|done].
  destruct (pick_lap laps1 n1) as [lap_a|] eqn:Hp1; step; [|done].
  destruct (pick_driver session d2) as [laps2|] eqn:Hl2; step; [|done].
  destruct (pick_lap laps2 n2) as [lap_b|] eqn:Hp2; step; [|done].
  destruct (load_lap_telemetry session lap_a); step; [|done].
  destruct (load_lap_telemetry session lap_b); step; [|done].
  destruct (Hraises _ _ _ _ eq_refl Hp1 eq_refl Hp2) as [e He].
  unfold align. by rewrite He.
Qed.

End RenderPassFacts.

(** ** The page: selectors and render pass together *)

Section PageFacts.
Context `{Pandas} `{FastF1}.
Variable session : Session.

Ltac step := cbn [mbind result_bind mret result_ret].

Lemma empty_setitem_nonempty {C} (df : DataFrame C) k c :
  empty df = false -> empty (setitem df k c) = false.
Proof.
  unfold empty, setitem. cbn [df_index df_columns].
  intros [-> _]%orb_false_iff. cbn [orb].
  apply bool_decide_eq_false_2, insert_non_empty.
Qed.

(** What [load_driver_laps] returns is empty exactly when the driver has no
    laps, and its selector options are always there. *)
Lemma loaded_laps_options code picked laps :
  pick_driver session code = Ok picked ->
  load_driver_laps session code = Ok laps ->
  empty laps = empty (laps_frame picked) /\
  exists options, lap_options laps = Ok options /\
    (empty (laps_frame picked) = true -> options = []).
Proof.
  intros Hpick Hload. destruct (empty (laps_frame picked)) eqn:He.
  - rewrite (load_driver_laps_no_laps _ _ _ Hpick He) in Hload. injection Hload as <-.
    rewrite empty_reset_index, He. split; [done|].
    unfold lap_options. rewrite empty_reset_index, He. by eexists.
  - destruct (df_columns (laps_frame picked) !! "LapTime") as [times|] eqn:Ht;
      [|by rewrite (load_driver_laps_no_time _ _ _ Hpick He Ht) in Hload].
    destruct (df_columns (laps_frame picked) !! "LapNumber")
      as [numbers|] eqn:Hn;
      [|by rewrite (load_driver_laps_no_number _ _ _ Hpick He (mk_is_Some _ _ Ht) Hn)
            in Hload].
    rewrite (load_driver_laps_labelled _ _ _ _ _ Hpick He Ht Hn) in Hload.
    injection Hload as <-.
    assert (Hne : empty (setitem (reset_index (laps_frame picked)) "LapLabel"
              (text_cells (str_add (str_add_scalar (astype_str numbers) " · ")
                             (fillna "NaT" (astype_str times))))) = false).
    { apply empty_setitem_nonempty. by rewrite empty_reset_index. }
    split; [done|]. unfold lap_options. rewrite Hne. cbn [negb].
    eexists. split; [|intros [=]].
    apply getitem_Some. cbn [setitem df_columns]. apply lookup_insert_eq.
Qed.

(** X11.  When one of the two drivers has no recorded lap, the page shows
    the warning: no label is parsed and no telemetry is loaded, whatever the
    selectors hold. *)
Theorem page_warns_without_laps (d1 d2 : string) (pick1 pick2 : nat)
    (show_delta : bool) (picked1 picked2 : Laps) (laps1 laps2 : LapsFrame) :
  pick_driver session d1 = Ok picked1 ->
  pick_driver session d2 = Ok picked2 ->
  load_driver_laps session d1 = Ok laps1 ->
  load_driver_laps session d2 = Ok laps2 ->
  empty (laps_frame picked1) = true \/ empty (laps_frame picked2) = true ->
  page session d1 d2 pick1 pick2 show_delta
  = Ok (PageWarning "Select valid drivers and laps to render telemetry.").
Proof.
  intros Hp1 Hp2 H1 H2 Hempty. unfold page. rewrite H1, H2. step.
  destruct (loaded_laps_options _ _ _ Hp1 H1) as (He1 & o1 & -> & _).
  destruct (loaded_laps_options _ _ _ Hp2 H2) as (He2 & o2 & -> & _). step.
  unfold render. rewrite He1, He2.
  destruct Hempty as [->| ->]; [done|].
  by destruct (empty (laps_frame picked1)).
Qed.

Lemma label_truthy a t : truthy (PyStr (a +:+ " · " +:+ t)) = true.
Proof. destruct a; reflexivity. Qed.

(** X12.  The page draws the laps the user picked: when row [pick1] of the
    first driver's laps has the integer lap number [n1] and row [pick2] of
    the second driver's has [n2], the page is the render pass over lap [n1]
    of the first driver and lap [n2] of the second. *)
Theorem page_renders_picked_laps (d1 d2 : string) (pick1 pick2 : nat)
    (show_delta : bool) (picked1 picked2 : Laps)
    (numbers1 times1 numbers2 times2 : list PyVal)
    (n1 n2 : Z) (t1 t2 : PyVal) :
  pick_driver session d1 = Ok picked1 ->
  empty (laps_frame picked1) = false ->
  df_columns (laps_frame picked1) !! "LapNumber" = Some numbers1 ->
  df_columns (laps_frame picked1) !! "LapTime" = Some times1 ->
  numbers1 !! pick1 = Some (PyInt n1) ->
  times1 !! pick1 = Some t1 ->
  pick_driver session d2 = Ok picked2 ->
  empty (laps_frame picked2) = false ->
  df_columns (laps_frame picked2) !! "LapNumber" = Some numbers2 ->
  df_columns (laps_frame picked2) !! "LapTime" = Some times2 ->
  numbers2 !! pick2 = Some (PyInt n2) ->
  times2 !! pick2 = Some t2 ->
  page session d1 d2 pick1 pick2 show_delta
  = p ← render_laps session d1 d2 n1 n2 show_delta; mret (PagePanels p).
Proof.
  intros Hd1 He1 Hn1 Ht1 Hp1 Hq1 Hd2 He2 Hn2 Ht2 Hp2 Hq2. unfold page.
  pose proof (load_driver_laps_labelled _ _ _ _ _ Hd1 He1 Ht1 Hn1) as Hl1.
  pose proof (load_driver_laps_labelled _ _ _ _ _ Hd2 He2 Ht2 Hn2) as Hl2.
  rewrite Hl1, Hl2. step.
  destruct (loaded_laps_options _ _ _ Hd1 Hl1) as (Hf1 & _).
  destruct (loaded_laps_options _ _ _ Hd2 Hl2) as (Hf2 & _).
  unfold lap_options. rewrite Hf1, Hf2, He1, He2. cbn [negb].
  rewrite (getitem_Some _ "LapLabel" _ (lookup_insert_eq _ _ _)). step.
  rewrite (getitem_Some _ "LapLabel" _ (lookup_insert_eq _ _ _)). step.
  unfold selectbox.
  rewrite (label_cell _ _ _ _ _ Hp1 Hq1), (label_cell _ _ _ _ _ Hp2 Hq2).
  cbn [from_option id cell_str py_str].
  rewrite render_unfold
    by (rewrite Hf1, Hf2, He1, He2, !label_truthy; reflexivity).
  by rewrite !lnum_label.
Qed.

End PageFacts.

(** ** Invariants of the traces *)

Section TraceFacts.
Variables (d1 d2 : string) (x_a x_b : XData) (col_a col_b : string).
Variables (tel_a tel_b tel_a_aligned tel_b_aligned : Telemetry).

Lemma series_length_mul s k : series_length (series_mul s k) = series_length s.
Proof. destruct s; cbn [series_mul series_length]; by rewrite length_fmap. Qed.

Lemma series_length_truediv s k :
  series_length (series_truediv s k) = series_length s.
Proof. destruct s; cbn [series_truediv series_length]; by rewrite length_fmap. Qed.

Lemma side_trace_channel xd col tel k mk t :
  (forall s, x (mk s) = xd /\ color (line (mk s)) = col /\ mode (mk s) = "lines" /\
             series_length (y (mk s)) = series_length s) ->
  t ∈ channel_trace tel k mk -> side_trace xd col tel t.
Proof.
  intros Hmk (s & Hs & ->)%elem_of_channel_trace.
  destruct (Hmk s) as (? & ? & ? & ?). repeat split; eauto.
Qed.

(** X13.  In the three distance panels every trace belongs to one side: it
    is drawn against that side's x data in that side's colour, as a line,
    and has exactly one point per value of a column of that side's frame. *)
Theorem traces_keep_their_side (p : Panels) (t : Scatter) :
  panels d1 d2 x_a x_b col_a col_b tel_a tel_b tel_a_aligned tel_b_aligned = Ok p ->
  t ∈ data (speed_panel p) ++ data (throttle_brake_panel p)
      ++ data (gear_rpm_panel p) ->
  side_trace x_a col_a tel_a_aligned t \/ side_trace x_b col_b tel_b_aligned t.
Proof.
  destruct (panels_ok d1 d2 x_a x_b col_a col_b
              tel_a tel_b tel_a_aligned tel_b_aligned) as (m & _ & ->).
  intros [= <-].
  cbn [speed_panel throttle_brake_panel gear_rpm_panel update_layout extend data
       go_Figure app].
  unfold speed_traces, throttle_brake_traces, gear_rpm_traces.
  rewrite !elem_of_app.
  intros Ht.
  repeat match goal with H : _ \/ _ |- _ => destruct H as [H|H] end;
    first [ left; (eapply side_trace_channel; [|exact Ht]); intros s;
            cbn [lines x y line color mode];
            rewrite ?series_length_mul, ?series_length_truediv; done
          | right; (eapply side_trace_channel; [|exact Ht]); intros s;
            cbn [lines x y line color mode];
            rewrite ?series_length_mul, ?series_length_truediv; done ].
Qed.

End TraceFacts.

(** ** Legend names *)

Section LegendFacts.
Variables (d1 d2 : string) (x_a x_b : XData) (col_a col_b : string).
Variables (tel_a_aligned tel_b_aligned : Telemetry).









End LegendFacts.

(** ** The event list and the round number *)

Section EventFacts.
Context `{EventSchedule}.

Ltac step := cbn [mbind result_bind mret result_ret].

Lemma filter_missing_nil {C} (df : DataFrame C) ks :
  List.filter (fun k => negb (contains k df)) ks = [] <->
  Forall (fun k => is_Some (df_columns df !! k)) ks.
Proof.
  induction ks as [|k ks IH]; cbn [List.filter]; [by split|].
  rewrite Forall_cons, <-IH, <-contains_true.
  destruct (contains k df); cbn [negb]; [tauto|].
  split; [done|by intros [[=] _]].
Qed.

Lemma select_columns_returns {C} (df : DataFrame C) ks :
  Forall (fun k => is_Some (df_columns df !! k)) ks ->
  select_columns df ks
  = Ok (mkDataFrame (df_index df) (filter (fun kc => kc.1 ∈ ks) (df_columns df))).
Proof. intros Hks%filter_missing_nil. unfold select_columns. by rewrite Hks. Qed.

Lemma select_columns_raises {C} (df : DataFrame C) ks :
  ~ Forall (fun k => is_Some (df_columns df !! k)) ks ->
  exists k, k ∈ ks /\ df_columns df !! k = None /\
    select_columns df ks = Raise (KeyError k).
Proof.
  intros Hks. unfold select_columns.
  destruct (List.filter _ ks) as [|k rest] eqn:Hf.
  { by apply filter_missing_nil in Hf. }
  assert (Hk : In k (List.filter (fun k => negb (contains k df)) ks))
    by (rewrite Hf; by left).
  apply List.filter_In in Hk as [Hin Hc].
  exists k. split; [by apply list_elem_of_In|]. split; [|done].
  apply contains_false. by apply negb_true_iff.
Qed.

Lemma lookup_selected {C} (m : gmap string C) (ks : list string) k :
  filter (fun kc : string * C => kc.1 ∈ ks) m !! k
  = if bool_decide (k ∈ ks) then m !! k else None.
Proof.
  case_bool_decide as Hk.
  - destruct (m !! k) as [c|] eqn:Hc.
    + by apply map_lookup_filter_Some_2.
    + apply map_lookup_filter_None_2. by left.
  - apply map_lookup_filter_None_2. right. by intros c _.
Qed.

(** X15.  [list_events] returns the provider's schedule cut down to the four
    columns [EventName], [RoundNumber], [EventFormat] and [EventDate], rows
    and cells untouched; when the schedule lacks one of them the call is a
    [KeyError] naming a missing column, and a failure of the provider is
    passed on. *)
Theorem list_events_columns (year : Z) :
  (forall e, get_event_schedule year = Raise e -> list_events year = Raise e) /\
  (forall sched, get_event_schedule year = Ok sched ->
     (Forall (fun k => is_Some (df_columns sched !! k)) event_columns ->
      exists events,
        list_events year = Ok events /\
        df_index events = df_index sched /\
        forall k, df_columns events !! k
                  = if bool_decide (k ∈ event_columns)
                    then df_columns sched !! k else None) /\
     (~ Forall (fun k => is_Some (df_columns sched !! k)) event_columns ->
      exists k, k ∈ event_columns /\ df_columns sched !! k = None /\
        list_events year = Raise (KeyError k))).
Proof.
  unfold list_events. split; [by intros e ->|].
  intros sched ->. step. split.
  - intros Hall. rewrite (select_columns_returns _ _ Hall).
    eexists. split; [done|]. split; [done|].
    intros k. cbn [df_columns]. apply lookup_selected.
  - apply select_columns_raises.
Qed.

Lemma py_eq_text v s : py_eq v (PyStr s) = true <-> v = PyStr s.
Proof.
  destruct v; cbn [py_eq]; try (split; [done|by intros [=]]).
  rewrite String.eqb_eq. split; [by intros ->|by intros [= ->]].
Qed.

Lemma mask_select_first {A} (mask : list bool) (col : list A) i v :
  (forall j, (j < i)%nat -> mask !! j = Some false) ->
  mask !! i = Some true ->
  col !! i = Some v ->
  PyString.first (mask_select mask col) = Ok v.
Proof.
  revert mask col. induction i as [|i IH]; intros [|b mask] [|c col] Hlt Hi Hv;
    try done.
  - cbn in Hi, Hv. injection Hi as ->. injection Hv as ->. done.
  - assert (b = false) as ->.
    { specialize (Hlt 0%nat ltac:(lia)). by injection Hlt. }
    cbn [mask_select]. apply IH; [|done..].
    intros j Hj. apply (Hlt (S j)). lia.
Qed.

Lemma mask_select_none {A} (mask : list bool) (col : list A) :
  Forall (fun b => b = false) mask -> mask_select mask col = [].
Proof.
  revert col. induction mask as [|b mask IH]; intros [|c col] Hm; try done.
  apply Forall_cons in Hm as [-> Hm]. cbn [mask_select]. by apply IH.
Qed.

(** The round number comes from the first row whose name equals the chosen
    one. *)
Lemma round_number_first (events : EventsFrame) names rounds name j vj cell :
  df_columns events !! "EventName" = Some names ->
  df_columns events !! "RoundNumber" = Some rounds ->
  (forall j' v, (j' < j)%nat -> names !! j' = Some v -> py_eq v name = false) ->
  names !! j = Some vj ->
  py_eq vj name = true ->
  rounds !! j = Some cell ->
  round_number events name = py_int cell.
Proof.
  intros Hn Hr Hlt Hj Heq Hc. unfold round_number.
  rewrite (getitem_Some _ _ _ Hn). step. rewrite (getitem_Some _ _ _ Hr). step.
  rewrite (mask_select_first _ _ j cell); [done| | |done].
  - intros j' Hj'. rewrite list_lookup_fmap.
    destruct (names !! j') as [v|] eqn:Hv.
    + cbn. f_equal. by eapply Hlt.
    + apply lookup_ge_None in Hv. apply lookup_lt_Some in Hj. lia.
  - by rewrite list_lookup_fmap, Hj; cbn; rewrite Heq.
Qed.

Lemma lookup_event_column (sched : EventsFrame) k :
  k ∈ event_columns ->
  df_columns (mkDataFrame (df_index sched)
                (filter (fun kc : string * list PyVal => kc.1 ∈ event_columns)
                   (df_columns sched))) !! k
  = df_columns sched !! k.
Proof.
  intros Hk. cbn [df_columns]. rewrite lookup_selected.
  by rewrite bool_decide_eq_true_2.
Qed.

(** X16.  The round number handed to [load_session] is the one of the first
    event that carries the chosen name: picking row [i] of the event
    selector gives the round number of the first row [j] with the same
    name, so with pairwise different names it is the picked event's own. *)
Theorem grand_prix_round (year : Z) (sched : EventsFrame)
    (names rounds : list PyVal) (i j : nat) (s : string) (r : Z) :
  get_event_schedule year = Ok sched ->
  Forall (fun k => is_Some (df_columns sched !! k)) event_columns ->
  df_columns sched !! "EventName" = Some names ->
  df_columns sched !! "RoundNumber" = Some rounds ->
  names !! i = Some (PyStr s) ->
  names !! j = Some (PyStr s) ->
  (forall j', (j' < j)%nat -> names !! j' <> Some (PyStr s)) ->
  rounds !! j = Some (PyInt r) ->
  grand_prix year i = Ok r /\ (NoDup names -> j = i).
Proof.
  intros Hs Hall Hn Hr Hi Hj Hfirst Hc. split.
  - unfold grand_prix, list_events. rewrite Hs. step.
    rewrite (select_columns_returns _ _ Hall). step.
    assert (Hn' : df_columns (mkDataFrame (df_index sched)
                    (filter (fun kc : string * list PyVal => kc.1 ∈ event_columns)
                       (df_columns sched))) !! "EventName" = Some names).
    { rewrite lookup_event_column; [done|]. by left. }
    assert (Hr' : df_columns (mkDataFrame (df_index sched)
                    (filter (fun kc : string * list PyVal => kc.1 ∈ event_columns)
                       (df_columns sched))) !! "RoundNumber" = Some rounds).
    { rewrite lookup_event_column; [done|]. right. by left. }
    rewrite (getitem_Some _ _ _ Hn'). step.
    unfold selectbox. rewrite Hi. cbn [from_option id].
    rewrite (round_number_first _ _ _ _ j (PyStr s) (PyInt r) Hn' Hr'); try done.
    + intros j' v Hlt Hv. destruct (py_eq v (PyStr s)) eqn:Heq; [|done].
      apply py_eq_text in Heq as ->. by destruct (Hfirst j' Hlt).
    + by apply py_eq_text.
  - intros Hnd. by eapply NoDup_lookup.
Qed.

(** X17.  A chosen name that equals no event name leaves nothing to take
    the round number from, and the lookup is an [IndexError]: so it is for
    an empty schedule, where the selector holds [None], and for an event
    whose name cell is missing. *)
Theorem grand_prix_without_match (year : Z) (sched : EventsFrame)
    (names : list PyVal) (i : nat) :
  get_event_schedule year = Ok sched ->
  Forall (fun k => is_Some (df_columns sched !! k)) event_columns ->
  df_columns sched !! "EventName" = Some names ->
  Forall (fun v => py_eq v (selectbox names i) = false) names ->
  grand_prix year i = Raise IndexError.
Proof.
  intros Hs Hall Hn Hno.
  assert (Hrounds : is_Some (df_columns sched !! "RoundNumber")).
  { rewrite Forall_forall in Hall. apply Hall. vm_compute. right. by left. }
  destruct Hrounds as [rounds Hr].
  unfold grand_prix, list_events. rewrite Hs. step.
  rewrite (select_columns_returns _ _ Hall). step.
  pose proof (lookup_event_column sched "EventName" ltac:(by left)) as Hn'.
  pose proof (lookup_event_column sched "RoundNumber" ltac:(right; by left)) as Hr'.
  rewrite Hn in Hn'. rewrite Hr in Hr'.
  rewrite (getitem_Some _ _ _ Hn'). step.
  unfold round_number. rewrite (getitem_Some _ _ _ Hn'). step.
  rewrite (getitem_Some _ _ _ Hr'). step.
  rewrite mask_select_none; [done|].
  apply Forall_fmap. eapply Forall_impl; [exact Hno|]. intros v Hv. exact Hv.
Qed.

End EventFacts.

(** ** The rest of the page on the samples *)

Module MoreExamples.
Import Sample Calendar.

Ltac run := vm_compute; reflexivity.

Lemma load_driver_laps_failure_witness :
  (pick_driver session_without_times "1"
   = Ok {| laps_frame := laps_without_times; pick_lap _ := Ok lap_nan |} /\
   empty laps_without_times = false /\
   df_columns laps_without_times !! "LapTime" = None) /\
  load_driver_laps session_without_times "1" = Raise (KeyError "LapTime").
Proof.
  assert (He : empty laps_without_times = false) by run.
  assert (Ht : df_columns laps_without_times !! "LapTime" = None) by run.
  split; [by repeat split|].
  exact (proj1 (proj2 (proj2 (load_driver_laps_failure session_without_times "1")
                         {| laps_frame := laps_without_times;
                            pick_lap _ := Ok lap_nan |} eq_refl)) He Ht).
Defined.

Lemma load_driver_laps_well_formed_witness :
  (pick_driver session "44"
   = Ok {| laps_frame := laps_44; pick_lap _ := Ok lap_bool |} /\
   laps_wf laps_44 /\
   load_driver_laps session "44" = Ok labelled_44) /\
  laps_wf labelled_44 /\
  df_index labelled_44 = seqZ 0 (Z.of_nat (length (df_index laps_44))).
Proof.
  assert (Hwf : laps_wf laps_44).
  { unfold laps_wf. apply (bool_decide_unpack _). vm_compute. exact I. }
  assert (Hload : load_driver_laps session "44" = Ok labelled_44) by run.
  split; [by repeat split|].
  destruct (load_driver_laps_well_formed session "44"
              {| laps_frame := laps_44; pick_lap _ := Ok lap_bool |}
              labelled_44 eq_refl Hwf Hload)
    as (Hw & Hi & _).
  by split.
Defined.

Lemma lnum_reads_front_part_witness :
  (PyString.all_chars PyString.is_ascii "12.0" = true /\
   (String.length "12.0" <= 4300)%nat /\
   PyString.all_chars (fun c => negb (Ascii.eqb " " c)) "12.0" = true) /\
  PyString.int "12.0" = Raise (ValueError "12.0") /\
  lnum (PyStr ("12.0" +:+ " · " +:+ "0 days 00:01:32.123000")) = PyString.int "12.0".
Proof.
  assert (Hlen : (String.length "12.0" <= 4300)%nat) by (simpl; lia).
  split; [by repeat split|]. split; [run|].
  exact (proj1 (lnum_reads_front_part "12.0" "0 days 00:01:32.123000"
                  eq_refl Hlen eq_refl)).
Defined.

Lemma labels_distinguish_laps_witness :
  (pick_driver session "44"
   = Ok {| laps_frame := laps_44; pick_lap _ := Ok lap_bool |} /\
   empty laps_44 = false /\
   df_columns laps_44 !! "LapNumber" = Some [PyInt 1; PyInt 2] /\
   load_driver_laps session "44" = Ok labelled_44 /\
   df_columns labelled_44 !! "LapLabel"
   = Some [PyStr "1 · 0 days 00:01:32.123000"; PyStr "2 · NaT"] /\
   1 <> 2) /\
  PyStr "1 · 0 days 00:01:32.123000" <> PyStr "2 · NaT".
Proof.
  assert (He : empty laps_44 = false) by run.
  assert (Hn : df_columns laps_44 !! "LapNumber" = Some [PyInt 1; PyInt 2]) by run.
  assert (Hload : load_driver_laps session "44" = Ok labelled_44) by run.
  assert (Hlab : df_columns labelled_44 !! "LapLabel"
                 = Some [PyStr "1 · 0 days 00:01:32.123000"; PyStr "2 · NaT"]) by run.
  assert (Hne : 1 <> 2) by lia.
  split; [by repeat split|].
  exact (labels_distinguish_laps session "44"
           {| laps_frame := laps_44; pick_lap _ := Ok lap_bool |}
           _ _ _ 0 1 1 2 _ _
           eq_refl He Hn Hload Hlab eq_refl eq_refl eq_refl eq_refl Hne).
Defined.

Lemma load_lap_telemetry_failure_witness :
  get_telemetry lap_nan = Ok tel_nan_brake /\
  df_columns tel_nan_brake !! "Brake" = Some (SFloat [0%float; nan]) /\
  forallb float_finite [0%float; nan] = false /\
  raises (load_lap_telemetry session lap_nan).
Proof.
  assert (Hb : df_columns tel_nan_brake !! "Brake" = Some (SFloat [0%float; nan]))
    by run.
  split; [reflexivity|]. split; [exact Hb|]. split; [reflexivity|].
  apply (proj1 (proj2 (load_lap_telemetry_failure session lap_nan)
                  tel_nan_brake eq_refl)).
  exists [0%float; nan]. by split.
Defined.

Lemma load_lap_telemetry_idempotent_witness :
  (load_lap_telemetry session lap_bool = Ok loaded_bool /\
   get_telemetry lap_reloaded = Ok loaded_bool) /\
  load_lap_telemetry session lap_reloaded = Ok loaded_bool.
Proof.
  assert (Hl : load_lap_telemetry session lap_bool = Ok loaded_bool) by run.
  split; [by split|].
  exact (load_lap_telemetry_idempotent session lap_bool lap_reloaded loaded_bool
           Hl eq_refl).
Defined.

Lemma loaded_frame_shape_witness :
  (get_telemetry lap_bool = Ok tel_bool_brake /\
   load_lap_telemetry session lap_bool = Ok loaded_bool) /\
  df_index loaded_bool = seqZ 0 (Z.of_nat (length (df_index tel_bool_brake))).
Proof.
  assert (Hl : load_lap_telemetry session lap_bool = Ok loaded_bool) by run.
  split; [by split|].
  exact (proj1 (loaded_frame_shape session lap_bool tel_bool_brake loaded_bool
                  eq_refl Hl)).
Defined.

Lemma x_axis_of_loaded_frame_witness :
  (get_telemetry lap_bool = Ok tel_bool_brake /\
   load_lap_telemetry session lap_bool = Ok loaded_bool) /\
  x_axis (copy loaded_bool) = Ok (XIndex [0; 1; 2]).
Proof.
  assert (Hl : load_lap_telemetry session lap_bool = Ok loaded_bool) by run.
  split; [by split|].
  exact (x_axis_of_loaded_frame session lap_bool tel_bool_brake loaded_bool
           eq_refl Hl).
Defined.

Lemma render_draws_witness :
  (negb (empty laps_44) && negb (empty laps_44)
   && truthy (PyStr "1 · x") && truthy (PyStr "2 · NaT") = true /\
   (forall laps, pick_driver session "44" = Ok laps -> laps_wf (laps_frame laps))) /\
  exists p,
    render session "44" "44" laps_44 laps_44 (PyStr "1 · x") (PyStr "2 · NaT") true
    = Ok (PagePanels p).
Proof.
  assert (Hg : negb (empty laps_44) && negb (empty laps_44)
               && truthy (PyStr "1 · x") && truthy (PyStr "2 · NaT") = true) by run.
  assert (Hwf : forall laps, pick_driver session "44" = Ok laps ->
                             laps_wf (laps_frame laps)).
  { intros laps [= <-]. unfold laps_wf. apply (bool_decide_unpack _).
    vm_compute. exact I. }
  split; [by split|].
  apply (proj1 (render_draws_iff_parsed_and_loaded session "44" "44"
                  laps_44 laps_44 (PyStr "1 · x") (PyStr "2 · NaT") true
                  Hg Hwf Hwf)).
  exists 1, 2, {| laps_frame := laps_44; pick_lap _ := Ok lap_bool |},
    {| laps_frame := laps_44; pick_lap _ := Ok lap_bool |},
    lap_bool, lap_bool, loaded_bool, loaded_bool.
  repeat split; run.
Defined.

Lemma failed_alignment_witness :
  (lnum (PyStr "1 · x") = Ok 1 /\ lnum (PyStr "2 · NaT") = Ok 2 /\
   raises (delta_time lap_bool lap_percent)) /\
  render session "44" "16" laps_44 laps_44 (PyStr "1 · x") (PyStr "2 · NaT") true
  = render session "44" "16" laps_44 laps_44 (PyStr "1 · x") (PyStr "2 · NaT") false.
Proof.
  assert (H1 : lnum (PyStr "1 · x") = Ok 1) by run.
  assert (H2 : lnum (PyStr "2 · NaT") = Ok 2) by run.
  assert (Hr : raises (delta_time lap_bool lap_percent))
    by (eexists; reflexivity).
  split; [by repeat split|].
  apply (failed_alignment_is_no_alignment session "44" "16" laps_44 laps_44
           _ _ 1 2 H1 H2).
  intros laps1 laps2 lap_a lap_b [= <-] [= <-] [= <-] [= <-]. exact Hr.
Defined.

Lemma page_warns_without_laps_witness :
  (pick_driver session "44"
   = Ok {| laps_frame := laps_44; pick_lap _ := Ok lap_bool |} /\
   pick_driver session "16"
   = Ok {| laps_frame := no_laps; pick_lap _ := Ok lap_percent |} /\
   load_driver_laps session "44" = Ok labelled_44 /\
   load_driver_laps session "16" = Ok (reset_index no_laps) /\
   empty no_laps = true) /\
  page session "44" "16" 0 0 true
  = Ok (PageWarning "Select valid drivers and laps to render telemetry.").
Proof.
  assert (H1 : load_driver_laps session "44" = Ok labelled_44) by run.
  assert (H2 : load_driver_laps session "16" = Ok (reset_index no_laps)) by run.
  assert (He : empty no_laps = true) by run.
  split; [by repeat split|].
  exact (page_warns_without_laps session "44" "16" 0 0 true
           {| laps_frame := laps_44; pick_lap _ := Ok lap_bool |}
           {| laps_frame := no_laps; pick_lap _ := Ok lap_percent |}
           _ _ eq_refl eq_refl H1 H2 (or_intror He)).
Defined.

Lemma page_renders_picked_laps_witness :
  (pick_driver session "44"
   = Ok {| laps_frame := laps_44; pick_lap _ := Ok lap_bool |} /\
   empty laps_44 = false /\
   df_columns laps_44 !! "LapNumber" = Some [PyInt 1; PyInt 2] /\
   df_columns laps_44 !! "LapTime" = Some [PyTimedelta 92123000000; PyNaT]) /\
  page session "44" "44" 0 1 false
  = p ← render_laps session "44" "44" 1 2 false; mret (PagePanels p).
Proof.
  assert (He : empty laps_44 = false) by run.
  assert (Hn : df_columns laps_44 !! "LapNumber" = Some [PyInt 1; PyInt 2]) by run.
  assert (Ht : df_columns laps_44 !! "LapTime"
               = Some [PyTimedelta 92123000000; PyNaT]) by run.
  split; [by repeat split|].
  exact (page_renders_picked_laps session "44" "44" 0 1 false
           {| laps_frame := laps_44; pick_lap _ := Ok lap_bool |}
           {| laps_frame := laps_44; pick_lap _ := Ok lap_bool |}
           _ _ _ _ 1 2 _ _
           eq_refl He Hn Ht eq_refl eq_refl eq_refl He Hn Ht eq_refl eq_refl).
Defined.

Lemma traces_keep_their_side_witness :
  exists p t,
    panels "44" "16" (XIndex [0; 1; 2]) (XIndex [0; 1]) "#27f4d2" "#ff7f0e"
      loaded_bool loaded_percent loaded_bool loaded_percent = Ok p /\
    t ∈ data (speed_panel p) ++ data (throttle_brake_panel p)
        ++ data (gear_rpm_panel p) /\
    name t = "16 brake%" /\
    (side_trace (XIndex [0; 1; 2]) "#27f4d2" loaded_bool t \/
     side_trace (XIndex [0; 1]) "#ff7f0e" loaded_percent t).
Proof.
  eassert (Hp : panels "44" "16" (XIndex [0; 1; 2]) (XIndex [0; 1])
                  "#27f4d2" "#ff7f0e"
                  loaded_bool loaded_percent loaded_bool loaded_percent = Ok _)
    by run.
  lazymatch type of Hp with
  | _ = Ok ?P =>
      exists P,
        (lines (XIndex [0; 1]) (SInt [0; 10000]) "16 brake%" "#ff7f0e" (Some "dash"));
      split; [exact Hp|];
      assert (Hin : lines (XIndex [0; 1]) (SInt [0; 10000]) "16 brake%" "#ff7f0e"
                      (Some "dash")
                    ∈ data (speed_panel P) ++ data (throttle_brake_panel P)
                      ++ data (gear_rpm_panel P))
        by (apply list_elem_of_In; cbn; right; right; left; reflexivity);
      split; [exact Hin|]; split; [reflexivity|];
      exact (traces_keep_their_side _ _ _ _ _ _ _ _ _ _ P _ Hp Hin)
  end.
Defined.


Lemma schedule_2024_has_columns :
  Forall (fun k => is_Some (df_columns schedule_2024 !! k)) event_columns.
Proof. apply (bool_decide_unpack _). vm_compute. exact I. Qed.

Lemma list_events_columns_witness :
  get_event_schedule 2024 = Ok schedule_2024 /\
  exists events,
    list_events 2024 = Ok events /\
    df_index events = df_index schedule_2024 /\
    df_columns events !! "RoundNumber" = Some [PyInt 1; PyInt 2; PyInt 3] /\
    df_columns events !! "Country" = None.
Proof.
  assert (Hs : get_event_schedule 2024 = Ok schedule_2024) by run.
  split; [exact Hs|].
  destruct (proj1 (proj2 (list_events_columns 2024) schedule_2024 Hs)
              schedule_2024_has_columns) as (events & He & Hi & Hc).
  exists events. split; [exact He|]. split; [exact Hi|].
  rewrite !Hc. split; run.
Defined.

Lemma grand_prix_round_witness :
  (get_event_schedule 2024 = Ok schedule_2024 /\
   NoDup [PyStr "Bahrain Grand Prix"; PyStr "Saudi Arabian Grand Prix";
          PyStr "Australian Grand Prix"]) /\
  grand_prix 2024 1 = Ok 2.
Proof.
  assert (Hnd : NoDup [PyStr "Bahrain Grand Prix"; PyStr "Saudi Arabian Grand Prix";
                       PyStr "Australian Grand Prix"]).
  { repeat (apply NoDup_cons_2; [rewrite ?not_elem_of_cons; repeat split;
            first [apply not_elem_of_nil|discriminate]|]). apply NoDup_nil_2. }
  assert (Hs : get_event_schedule 2024 = Ok schedule_2024) by run.
  assert (Hn : df_columns schedule_2024 !! "EventName"
               = Some [PyStr "Bahrain Grand Prix"; PyStr "Saudi Arabian Grand Prix";
                       PyStr "Australian Grand Prix"]) by run.
  assert (Hr : df_columns schedule_2024 !! "RoundNumber"
               = Some [PyInt 1; PyInt 2; PyInt 3]) by run.
  split; [by split|].
  refine (proj1 (grand_prix_round 2024 schedule_2024 _ _ 1 1
                   "Saudi Arabian Grand Prix" 2
                   Hs schedule_2024_has_columns Hn Hr
                   eq_refl eq_refl _ eq_refl)).
  intros [|j'] Hlt; [discriminate|lia].
Defined.

Lemma grand_prix_without_match_witness :
  (get_event_schedule 2018 = Ok schedule_empty /\
   df_columns schedule_empty !! "EventName" = Some []) /\
  grand_prix 2018 0 = Raise IndexError.
Proof.
  assert (Hs : get_event_schedule 2018 = Ok schedule_empty) by run.
  assert (Hn : df_columns schedule_empty !! "EventName" = Some []) by run.
  split; [by split|].
  refine (grand_prix_without_match 2018 schedule_empty [] 0 Hs _ Hn _).
  - apply (bool_decide_unpack _). vm_compute. exact I.
  - apply Forall_nil_2.
Defined.

End MoreExamples.
